(** * ProDriveNet: the RDW vehicle-lookup proxy

    A shallow embedding of the [GET /api/rdw] handler of the repository's
    Express servers ([server.js] and its sibling variants), and the
    properties of the handler that the specification states.

    Modelling conventions.
    - A JS string is a Rocq [string]; every [ascii] stands for one UTF-16
      code unit, so the strings of the model are those of code units below
      256.
    - A JS number is the rational value of a binary64 number, or NaN or one
      of the two infinities ([Num]).  A numeric literal is rounded to the
      nearest binary64 value.  A difference is kept exact: the code uses
      differences in its comparators only, for their sign, which the
      rounding of a difference of two binary64 values keeps.  The sign of
      zero is not modelled.
    - A dataset answer is an array of flat rows: JSON objects whose members
      are scalars ([JSValue]), which is how the open-data service serialises
      these datasets.
    - The kenteken parameter is a string, an array or an object, as the
      query parser delivers it.  The handlers are modelled from the text
      that [String(...)] makes of it; on an object with a member named
      toString the conversion raises a TypeError instead, before the [try]
      of the handlers ([String_throws]).
    - Console output is not modelled. *)

From Stdlib Require Import ZArith QArith Qabs Ascii String List Bool Lia.
From Stdlib Require Import DecimalString DecimalN Sorted Permutation Lqa.
From stdpp Require Import gmap strings.

Import ListNotations.
Set Warnings "-register-all".
Set Default Proof Using "Type".
Local Open Scope string_scope.
Local Open Scope list_scope.
Local Open Scope N_scope.

(** ** JavaScript strings *)

Module JSString.

Definition code (c : ascii) : N := N_of_ascii c.

Definition in_range (lo hi : N) (c : ascii) : bool :=
  (lo <=? code c) && (code c <=? hi).

Definition is_upper : ascii -> bool := in_range 65 90.
Definition is_lower : ascii -> bool := in_range 97 122.
Definition is_digit : ascii -> bool := in_range 48 57.

(** WhiteSpace and LineTerminator code units below 256: TAB, LF, VT, FF, CR,
    SP and NBSP. *)
Definition is_space (c : ascii) : bool :=
  in_range 9 13 c || (code c =? 32) || (code c =? 160).

(** The upper-case form of a code unit: the letters a-z and the accented
    letters U+00E0..U+00FE (the division sign U+00F7 apart) move down by 32,
    and the sharp s U+00DF becomes "SS".  The upper-case forms of U+00B5 and
    U+00FF are no code units below 256; the two are left as they are, which
    keeps them, as in JavaScript, outside the letters A-Z. *)
Definition upper_char (c : ascii) : string :=
  if is_lower c then String (ascii_of_N (code c - 32)) EmptyString
  else if code c =? 223 then "SS"
  else if in_range 224 254 c && negb (code c =? 247)
       then String (ascii_of_N (code c - 32)) EmptyString
  else String c EmptyString.

(** [s.toUpperCase()] *)
Fixpoint toUpperCase (s : string) : string :=
  match s with
  | EmptyString => EmptyString
  | String c r => upper_char c ++ toUpperCase r
  end.

(** [s.replace(/-/g, '')] *)
Fixpoint removeHyphens (s : string) : string :=
  match s with
  | EmptyString => EmptyString
  | String c r => if (code c =? 45) then removeHyphens r else String c (removeHyphens r)
  end.

Fixpoint trimStart (s : string) : string :=
  match s with
  | EmptyString => EmptyString
  | String c r => if is_space c then trimStart r else s
  end.

Fixpoint trimEnd (s : string) : string :=
  match s with
  | EmptyString => EmptyString
  | String c r =>
      match trimEnd r with
      | EmptyString => if is_space c then EmptyString else String c EmptyString
      | r' => String c r'
      end
  end.

(** [s.trim()] *)
Definition trim (s : string) : string := trimEnd (trimStart s).

(** [s.slice(from, to)], with the clamping of the two indices that
    String.prototype.slice performs. *)
Definition clamp_index (len i : Z) : Z :=
  if (i <? 0)%Z then Z.max (len + i) 0 else Z.min i len.

Definition slice (s : string) (from to : Z) : string :=
  let len := Z.of_nat (String.length s) in
  let f := clamp_index len from in
  let t := clamp_index len to in
  substring (Z.to_nat f) (Z.to_nat (Z.max (t - f) 0)) s.

(** A string is truthy when it is not empty. *)
Definition nonempty (s : string) : bool :=
  match s with EmptyString => false | _ => true end.

(** [String(n)] for a non-negative integer. *)
Definition of_N (n : N) : string := NilEmpty.string_of_uint (N.to_uint n).

(** [/^[A-Z0-9]{1,8}$/.test(s)] *)
Fixpoint all_chars (p : ascii -> bool) (s : string) : bool :=
  match s with
  | EmptyString => true
  | String c r => p c && all_chars p r
  end.

Definition is_plate_char (c : ascii) : bool := is_upper c || is_digit c.

Definition test_plate (s : string) : bool :=
  (1 <=? String.length s)%nat && (String.length s <=? 8)%nat
  && all_chars is_plate_char s.

(** [encodeURIComponent(s)]: the unreserved marks and the alphanumerics stay,
    every other code unit is written as the percent-escapes of its UTF-8
    bytes. *)
Definition is_unreserved (c : ascii) : bool :=
  is_upper c || is_lower c || is_digit c
  || existsb (N.eqb (code c)) [45; 95; 46; 33; 126; 42; 39; 40; 41].

Definition hex_digit (n : N) : ascii :=
  if n <? 10 then ascii_of_N (48 + n) else ascii_of_N (55 + n).

Definition percent (byte : N) : string :=
  String "%" (String (hex_digit (byte / 16)) (String (hex_digit (byte mod 16)) EmptyString)).

Definition escape_char (c : ascii) : string :=
  if is_unreserved c then String c EmptyString
  else if code c <? 128 then percent (code c)
  else percent (192 + code c / 64) ++ percent (128 + code c mod 64).

Fixpoint encodeURIComponent (s : string) : string :=
  match s with
  | EmptyString => EmptyString
  | String c r => escape_char c ++ encodeURIComponent r
  end.

End JSString.

(** ** JavaScript numbers and scalar values *)

Module JS.
Import JSString.

(** A number value: NaN, an infinity with its sign, or a finite rational. *)
Inductive Num : Type :=
| NaN
| Inf (negative : bool)
| Fin (q : Q).

Definition num_truthy (n : Num) : bool :=
  match n with
  | NaN => false
  | Inf _ => true
  | Fin q => negb (Qeq_bool q 0)
  end.

(** [x - y] on numbers. *)
Definition num_sub (x y : Num) : Num :=
  match x, y with
  | NaN, _ | _, NaN => NaN
  | Inf a, Inf b => if Bool.eqb a b then NaN else Inf a
  | Inf a, Fin _ => Inf a
  | Fin _, Inf b => Inf (negb b)
  | Fin p, Fin q => Fin (Qred (p - q))
  end.

(** [x > 0]; false on NaN. *)
Definition num_positive (x : Num) : bool :=
  match x with
  | NaN => false
  | Inf neg => negb neg
  | Fin q => negb (Qle_bool q 0)
  end.

(** [x <= y] in the order of the extended rationals; false when either side
    is NaN. *)
Definition num_le (x y : Num) : bool :=
  match x, y with
  | NaN, _ | _, NaN => false
  | Inf true, _ => true
  | _, Inf false => true
  | Inf false, _ => false
  | _, Inf true => false
  | Fin p, Fin q => Qle_bool p q
  end.

(** *** Rounding to binary64

    A number value is a binary64 value.  What a numeric literal writes is
    rounded to the nearest one, ties to the one with an even significand;
    beyond the largest one it becomes an infinity. *)

(** The integer nearest to [n / d], for [n] not negative; a tie goes to the
    even one. *)
Definition nearest_even (n : Z) (d : positive) : Z :=
  let q := (n / Zpos d)%Z in
  let r := (n mod Zpos d)%Z in
  match (2 * r ?= Zpos d)%Z with
  | Lt => q
  | Gt => (q + 1)%Z
  | Eq => if Z.even q then q else (q + 1)%Z
  end.

(** [x * 2^k] *)
Definition shift2 (x : Q) (k : Z) : Q :=
  if (0 <=? k)%Z then (x * inject_Z (2 ^ k))%Q else (x / inject_Z (2 ^ (- k)))%Q.

(** The integer part of the binary logarithm of a positive [x]. *)
Definition ilog2 (x : Q) : Z :=
  let k := (Z.log2 (Qnum x) - Z.log2 (Zpos (Qden x)))%Z in
  if Qle_bool (shift2 1 k) x then k else (k - 1)%Z.

(** The binary64 value nearest to [x]: a significand of 53 bits, the
    exponent of the last bit not below -1074, and an infinity from 2^1024
    on. *)
Definition binary64 (x : Q) : Num :=
  if Qeq_bool x 0 then Fin 0
  else
    let a := Qabs x in
    let e := Z.max (ilog2 a - 52) (-1074) in
    let s := shift2 a (- e) in
    let r := shift2 (inject_Z (nearest_even (Qnum s) (Qden s))) e in
    let negative := negb (Qle_bool 0 x) in
    if Qle_bool (inject_Z (2 ^ 1024)) r then Inf negative
    else Fin (Qred (if negative then (- r)%Q else r)).

(** *** StringToNumber *)

Definition digit_value (base : N) (c : ascii) : option N :=
  let d :=
    if is_digit c then Some (code c - 48)
    else if in_range 97 102 c then Some (code c - 87)
    else if in_range 65 70 c then Some (code c - 55)
    else None in
  match d with
  | Some v => if v <? base then Some v else None
  | None => None
  end.

(** The longest prefix of digits of [l]: its value on top of [acc], the
    number of digits read, and what is left. *)
Fixpoint digits (base : N) (l : list ascii) (acc : N) (count : nat)
  : N * nat * list ascii :=
  match l with
  | c :: r =>
      match digit_value base c with
      | Some d => digits base r (acc * base + d) (S count)
      | None => (acc, count, l)
      end
  | [] => (acc, count, l)
  end.

(** m * 10^e as a rational. *)
Definition scale10 (m : N) (e : Z) : Q :=
  if (0 <=? e)%Z then inject_Z (Z.of_N m * 10 ^ e)
  else Qred (Qmake (Z.of_N m) (Z.to_pos (10 ^ (- e)))).

(** ExponentPart, which must reach the end of the literal. *)
Definition exponent_part (l : list ascii) : option Z :=
  match l with
  | [] => Some 0%Z
  | c :: r =>
      if (code c =? 101) || (code c =? 69) then
        let '(neg, r') :=
          match r with
          | s :: t => if code s =? 45 then (true, t)
                      else if code s =? 43 then (false, t) else (false, r)
          | [] => (false, r)
          end in
        match digits 10 r' 0 0 with
        | (v, S _, []) => Some (if neg then (- Z.of_N v)%Z else Z.of_N v)
        | _ => None
        end
      else None
  end.

(** StrUnsignedDecimalLiteral *)
Definition unsigned_decimal (l : list ascii) : option Num :=
  if String.eqb (string_of_list_ascii l) "Infinity" then Some (Inf false)
  else
    let '(ip, ni, r1) := digits 10 l 0 0 in
    let '(m, nf, r2, any) :=
      match r1 with
      | c :: r =>
          if code c =? 46 then
            let '(m, nf, r2) := digits 10 r ip 0 in
            (m, nf, r2, negb ((ni + nf =? 0)%nat))
          else (ip, 0%nat, r1, negb ((ni =? 0)%nat))
      | [] => (ip, 0%nat, r1, negb ((ni =? 0)%nat))
      end in
    if any then
      match exponent_part r2 with
      | Some e => Some (binary64 (scale10 m (e - Z.of_nat nf)))
      | None => None
      end
    else None.

Definition num_neg (n : Num) : Num :=
  match n with
  | NaN => NaN
  | Inf b => Inf (negb b)
  | Fin q => Fin (Qred (- q))
  end.

(** StrDecimalLiteral: an optional sign and an unsigned literal. *)
Definition signed_decimal (l : list ascii) : option Num :=
  match l with
  | c :: r =>
      if code c =? 45 then option_map num_neg (unsigned_decimal r)
      else if code c =? 43 then unsigned_decimal r
      else unsigned_decimal l
  | [] => None
  end.

(** NonDecimalIntegerLiteral: 0x, 0o and 0b literals, unsigned. *)
Definition non_decimal (l : list ascii) : option Num :=
  match l with
  | z :: p :: r =>
      if code z =? 48 then
        let base :=
          if (code p =? 120) || (code p =? 88) then Some 16
          else if (code p =? 111) || (code p =? 79) then Some 8
          else if (code p =? 98) || (code p =? 66) then Some 2
          else None in
        match base with
        | Some b =>
            match digits b r 0 0 with
            | (v, S _, []) => Some (binary64 (inject_Z (Z.of_N v)))
            | _ => None
            end
        | None => None
        end
      else None
  | _ => None
  end.

(** [Number(s)] for a string: white space around the literal is dropped, the
    empty string is 0, anything that is not a numeric literal is NaN. *)
Definition StringToNumber (s : string) : Num :=
  match list_ascii_of_string (trim s) with
  | [] => Fin 0
  | l =>
      match non_decimal l with
      | Some n => n
      | None =>
          match signed_decimal l with
          | Some n => n
          | None => NaN
          end
      end
  end.

(** *** Scalar values *)

Inductive JSValue : Type :=
| VUndefined
| VNull
| VBool (b : bool)
| VNumber (n : Num)
| VString (s : string).

(** ToBoolean *)
Definition truthy (v : JSValue) : bool :=
  match v with
  | VUndefined | VNull => false
  | VBool b => b
  | VNumber n => num_truthy n
  | VString s => nonempty s
  end.

(** [Number(v)] *)
Definition Number (v : JSValue) : Num :=
  match v with
  | VUndefined => NaN
  | VNull => Fin 0
  | VBool b => if b then Fin 1 else Fin 0
  | VNumber n => n
  | VString s => StringToNumber s
  end.

(** [a || b] *)
Definition or (a b : JSValue) : JSValue := if truthy a then a else b.

(** [a - b] *)
Definition minus (a b : JSValue) : Num := num_sub (Number a) (Number b).

(** The conversion that the servers write out at every quantity field,
    [v ? Number(v) : null]; the specification calls it coerce. *)
Definition coerce (v : JSValue) : JSValue :=
  if truthy v then VNumber (Number v) else VNull.

(** [v || null] *)
Definition or_null (v : JSValue) : JSValue := or v VNull.

End JS.

(** ** Rows, response bodies, exceptions and the outside world *)

Module Data.
Import JSString JS.

(** A row of a dataset: a parsed JSON object with scalar members. *)
Abbreviation Row := (gmap string JSValue).
Abbreviation RecordSet := (list (gmap string JSValue)).

(** [row.key], undefined when the row has no such member. *)
Definition get (row : Row) (key : string) : JSValue :=
  match row !! key with
  | Some v => v
  | None => VUndefined
  end.

(** [rows[0]?.key] *)
Definition first_get (rows : RecordSet) (key : string) : JSValue :=
  match rows with
  | row :: _ => get row key
  | [] => VUndefined
  end.

(** An object literal with scalar members, in the order it is written. *)
Definition Obj : Type := list (string * JSValue).

Fixpoint prop (o : Obj) (key : string) : JSValue :=
  match o with
  | [] => VUndefined
  | (k, v) :: r => if String.eqb k key then v else prop r key
  end.

(** [objs[0]?.key] *)
Definition first_prop (objs : list Obj) (key : string) : JSValue :=
  match objs with
  | o :: _ => prop o key
  | [] => VUndefined
  end.

(** A response body. *)
Inductive Json : Type :=
| JVal (v : JSValue)
| JArr (items : list Json)
| JObj (members : list (string * Json)).

Definition jobj (o : Obj) : Json :=
  JObj (map (fun kv => (fst kv, JVal (snd kv))) o).

Definition jrows (rows : RecordSet) : Json :=
  JArr (map (fun row : Row => jobj (map_to_list row)) rows).

Definition jstrings (l : list string) : Json :=
  JArr (map (fun s => JVal (VString s)) l).

Fixpoint lookup_member (members : list (string * Json)) (key : string) : option Json :=
  match members with
  | [] => None
  | (k, j) :: r => if String.eqb k key then Some j else lookup_member r key
  end.

Definition member (key : string) (j : Json) : option Json :=
  match j with
  | JObj members => lookup_member members key
  | _ => None
  end.

(** [body.k1.k2...] *)
Fixpoint path (keys : list string) (j : Json) : option Json :=
  match keys with
  | [] => Some j
  | k :: r =>
      match member k j with
      | Some j' => path r j'
      | None => None
      end
  end.

(** A thrown error object. *)
Record Exn : Type := { name : string; message : string }.

Definition Error (msg : string) : Exn := {| name := "Error"; message := msg |}.
Definition TypeError (msg : string) : Exn := {| name := "TypeError"; message := msg |}.

(** [String(e?.message || e)]: an error with an empty message prints as its
    name. *)
Definition describe (e : Exn) : string :=
  if nonempty (message e) then message e else name e.

Inductive Result (A : Type) : Type :=
| Ok (a : A)
| Throw (e : Exn).
Arguments Ok {A} a.
Arguments Throw {A} e.

(** [req.query.kenteken] as the query parser of Express delivers it: a
    string, an array (a repeated parameter) or an object (a bracketed
    parameter). *)
Inductive Query : Type :=
| QString (s : string)
| QArray (items : list Query)
| QObject (members : list (string * Query)).

Fixpoint join (sep : string) (l : list string) : string :=
  match l with
  | [] => ""
  | [s] => s
  | s :: r => s ++ sep ++ join sep r
  end.

(** The text that [String(q)] gives. *)
Fixpoint String_of (q : Query) : string :=
  match q with
  | QString s => s
  | QArray items => join "," (map String_of items)
  | QObject _ => "[object Object]"
  end.

(** [String(q)] gives that text unless it meets an object that has a member
    named [toString] of its own.  The query parser delivers strings, arrays
    and objects only, so that such a member cannot be called; the inherited
    [valueOf] gives back the object itself, and the conversion raises a
    TypeError.  An array hands the conversion on to its elements. *)
Fixpoint String_throws (q : Query) : bool :=
  match q with
  | QString _ => false
  | QArray items => existsb String_throws items
  | QObject members => existsb (fun m => String.eqb (fst m) "toString") members
  end.

(** [String(req.query.kenteken || '')]; the parameter may be absent. *)
Definition kenteken_text (q : option Query) : string :=
  match q with
  | None => ""
  | Some v => String_of v
  end.

(** Whether that conversion raises its TypeError.  The handlers make the
    conversion before their [try]; they are modelled from the text on, for
    a parameter on which the conversion gives one. *)
Definition kenteken_throws (q : option Query) : bool :=
  match q with
  | None => false
  | Some v => String_throws v
  end.

(** An outbound request: [fetch(url, { headers })]. *)
Record Request : Type := { url : string; headers : list (string * string) }.

(** What the open-data service sends back: the status line, the body text,
    and what parsing the body as JSON gives (a SyntaxError when it is not
    JSON). *)
Record Reply : Type := {
  status : N;
  statusText : string;
  text : string;
  parsed : Result RecordSet
}.

(** [r.ok] *)
Definition ok (r : Reply) : bool := (200 <=? status r) && (status r <=? 299).

(** A fetch is rejected (a network failure) or answered. *)
Inductive Outcome : Type :=
| Rejected (e : Exn)
| Replied (r : Reply).

(** The upstream service during one request: the outcome of the fetch of
    every URL, and the time at which it settles. *)
Record Upstream : Type := {
  answer : string -> Outcome;
  settled : string -> nat
}.

(** [headers = {}; if (process.env.RDW_APP_TOKEN) headers['X-App-Token'] = ...] *)
Definition app_token_headers (env : gmap string string) : list (string * string) :=
  match env !! "RDW_APP_TOKEN" with
  | Some token => if nonempty token then [("X-App-Token", token)] else []
  | None => []
  end.

(** What a run of the handler leaves behind: the response it sent, or the
    exception that escaped it (the handler sends no response then), and the
    requests it issued, in order. *)
Inductive Answer : Type :=
| Responded (code : N) (body : Json)
| Unhandled (e : Exn).

Record Run : Type := { outcome : Answer; requests : list Request }.

Definition error_body (msg : string) : Json :=
  JObj [("error", JVal (VString msg))].

(** A stable sort: [later x y] says that [x] has to come after [y]. *)
Fixpoint place {A : Type} (later : A -> A -> bool) (x : A) (l : list A) : list A :=
  match l with
  | [] => [x]
  | y :: r => if later x y then y :: place later x r else x :: l
  end.

Fixpoint stable_sort {A : Type} (later : A -> A -> bool) (l : list A) : list A :=
  match l with
  | [] => []
  | x :: r => place later x (stable_sort later r)
  end.

(** [l.sort(cmp)].  The sort of an array is stable: [a] goes after [b]
    when [cmp(a, b) > 0], and keeps its place before [b] otherwise; a NaN
    from the comparator counts as 0. *)
Definition Array_sort {A : Type} (cmp : A -> A -> Num) (l : list A) : list A :=
  stable_sort (fun a b => num_positive (cmp a b)) l.

End Data.

(** ** The partial-tolerant server ([src/unnamed/part_001])

    The variant that fetches the basis dataset first and then the other
    datasets independently, turning a failed secondary fetch into a
    warning. *)

Module Part001.
Import JSString JS Data.

Definition RDW_HOST : string := "https://opendata.rdw.nl".

(** The keys of the [RDW] table. *)
Inductive Dataset : Type := basis | brand | kleuren | assen.

Definition RDW (d : Dataset) : string :=
  match d with
  | basis => "/resource/m9d7-ebf2.json"
  | brand => "/resource/8ys7-d773.json"
  | kleuren => "/resource/ihha-7xnj.json"
  | assen => "/resource/3huj-srit.json"
  end.

(** [(s && s.length === 8) ? `${s.slice(0,4)}-${s.slice(4,6)}-${s.slice(6,8)}` : null];
    a value that is not a string has no [length]. *)
Definition parseDate (s : JSValue) : JSValue :=
  match s with
  | VString t =>
      if truthy s && (String.length t =? 8)%nat
      then VString (slice t 0 4 ++ "-" ++ slice t 4 6 ++ "-" ++ slice t 6 8)
      else VNull
  | _ => VNull
  end.

(** [String(req.query.kenteken || '').toUpperCase().replace(/-/g,'').trim()] *)
Definition normalize (q : option Query) : string :=
  trim (removeHyphens (toUpperCase (kenteken_text q))).

(** The name under which a failed fetch is reported. *)
Definition label (d : Dataset) : string :=
  match d with
  | basis => "basis"
  | brand => "brandstof"
  | kleuren => "kleuren"
  | assen => "assen"
  end.

(** [`${label}: ${String(e.message).slice(0,140)}`] *)
Definition warning (d : Dataset) (e : Exn) : string :=
  label d ++ ": " ++ slice (message e) 0 140.

Definition fuel_entry (x : Row) : Obj :=
  [ ("brandstof_volgnummer", coerce (get x "brandstof_volgnummer"));
    ("omschrijving",
       or (get x "brandstof_omschrijving") (or (get x "brandstof_omschrijving") VNull));
    ("co2_gecombineerd_g_km", coerce (get x "co2_uitstoot_gecombineerd"));
    ("nettomaximumvermogen_kw", coerce (get x "nettomaximumvermogen")) ].

(** [(a.brandstof_volgnummer||99)-(b.brandstof_volgnummer||99)] *)
Definition by_volgnummer (a b : Obj) : Num :=
  minus (or (prop a "brandstof_volgnummer") (VNumber (Fin 99)))
        (or (prop b "brandstof_volgnummer") (VNumber (Fin 99))).

Definition fuels (brand : RecordSet) : list Obj :=
  Array_sort by_volgnummer (map fuel_entry brand).

(** [basis.datum_eerste_toelating ? Number(basis.datum_eerste_toelating.slice(0,4)) : null];
    a truthy value that is not a string has no [slice] method. *)
Definition bouwjaar (b : Row) : Result JSValue :=
  let d := get b "datum_eerste_toelating" in
  if truthy d then
    match d with
    | VString s => Ok (VNumber (StringToNumber (slice s 0 4)))
    | _ => Throw (TypeError "basis.datum_eerste_toelating.slice is not a function")
    end
  else Ok VNull.

Definition summary (plate : string) (b : Row) (kleuren : RecordSet) (fuels : list Obj)
  : Result Obj :=
  match bouwjaar b with
  | Throw e => Throw e
  | Ok year =>
      Ok [ ("kenteken", VString plate);
           ("merk", or_null (get b "merk"));
           ("handelsbenaming", or_null (get b "handelsbenaming"));
           ("voertuigsoort", or_null (get b "voertuigsoort"));
           ("bouwjaar", year);
           ("datum_eerste_toelating", parseDate (get b "datum_eerste_toelating"));
           ("apk_vervaldatum", parseDate (get b "vervaldatum_apk"));
           ("kleur", or (first_get kleuren "eerste_kleur") (or (get b "eerste_kleur") VNull));
           ("tweede_kleur", or (first_get kleuren "tweede_kleur") VNull);
           ("brandstof", or (first_prop fuels "omschrijving") VNull);
           ("zitplaatsen", coerce (get b "aantal_zitplaatsen"));
           ("deuren", coerce (get b "aantal_deuren"));
           ("massa_rijklaar_kg", coerce (get b "massa_rijklaar")) ]
  end.

Definition details_basis (b : Row) : Obj :=
  [ ("voertuigsoort", or_null (get b "voertuigsoort"));
    ("merk", or_null (get b "merk"));
    ("handelsbenaming", or_null (get b "handelsbenaming"));
    ("inrichting", or_null (get b "inrichting"));
    ("catalogusprijs", coerce (get b "catalogusprijs"));
    ("aantal_cilinders", coerce (get b "aantal_cilinders"));
    ("cilinderinhoud_cc", coerce (get b "cilinderinhoud"));
    ("lengte_cm", coerce (get b "lengte"));
    ("breedte_cm", coerce (get b "breedte"));
    ("hoogte_cm", coerce (get b "hoogte"));
    ("wielbasis_cm", coerce (get b "wielbasis"));
    ("eu_voertuigcategorie", or_null (get b "eu_voertuigcategorie"));
    ("type", or_null (get b "type"));
    ("variant", or_null (get b "variant"));
    ("uitvoering", or_null (get b "uitvoering"));
    ("wam_verzekerd", or_null (get b "wam_verzekerd"));
    ("taxi_indicator", or_null (get b "taxi_indicator"));
    ("openstaande_terugroepactie_indicator",
       or_null (get b "openstaande_terugroepactie_indicator")) ].

Definition kleur_entry (k : Row) : Obj :=
  [ ("eerste_kleur", or_null (get k "eerste_kleur"));
    ("tweede_kleur", or_null (get k "tweede_kleur")) ].

Definition as_entry (a : Row) : Obj :=
  [ ("asnummer", coerce (get a "asnummer"));
    ("spoorbreedte", coerce (get a "spoorbreedte"));
    ("technische_max_aslast", coerce (get a "technische_max_aslast"));
    ("wielbasis", coerce (get a "wielbasis"));
    ("aantal_assen", coerce (get a "aantal_assen"));
    ("aslast_technisch_toegestaan", coerce (get a "aslast_technisch_toegestaan")) ].

Definition details (b : Row) (fuels : list Obj) (kleuren assen : RecordSet)
    (warnings : list string) : Json :=
  JObj [ ("basis", jobj (details_basis b));
         ("brandstoffen", JArr (map jobj fuels));
         ("kleuren", JArr (map (fun k => jobj (kleur_entry k)) kleuren));
         ("assen", JArr (map (fun a => jobj (as_entry a)) assen));
         ("warnings", jstrings warnings) ].

Section Handler.

Variable env : gmap string string.
Variable up : Upstream.
Variable query : option Query.

Definition plate : string := normalize query.

Definition request (d : Dataset) : Request :=
  {| url := RDW_HOST ++ RDW d ++ "?kenteken=" ++ encodeURIComponent plate;
     headers := app_token_headers env |}.

(** [fetchJSON(RDW.d)], once its request has been issued. *)
Definition fetchJSON (d : Dataset) : Result RecordSet :=
  match answer up (url (request d)) with
  | Rejected e => Throw e
  | Replied r =>
      if negb (ok r) then
        Throw (Error (if nonempty (text r) then text r
                      else "RDW " ++ of_N (status r) ++ " " ++ statusText r))
      else
        match parsed r with
        | Ok rows => Ok rows
        | Throw _ => Throw (Error "Kon RDW-antwoord niet parsen")
        end
  end.

(** The three fetches of the [Promise.all], in the order they are started. *)
Definition secondary : list Dataset := [brand; kleuren; assen].

(** ... and in the order they settle. *)
Definition settling : list Dataset :=
  stable_sort
    (fun x y => (settled up (url (request y)) <? settled up (url (request x)))%nat)
    secondary.

(** What a secondary fetch leaves in its variable: the rows, or the initial
    empty array when it failed. *)
Definition rows_of (d : Dataset) : RecordSet :=
  match fetchJSON d with
  | Ok rows => rows
  | Throw _ => []
  end.

(** The warning a fetch pushes when it fails. *)
Definition pushes (d : Dataset) : list string :=
  match fetchJSON d with
  | Ok _ => []
  | Throw e => [warning d e]
  end.

Definition not_found : Json := error_body "Geen voertuig gevonden voor kenteken.".

Definition api_rdw : Run :=
  if negb (test_plate plate) then
    {| outcome := Responded 400 (error_body "Ongeldig kentekenformaat");
       requests := [] |}
  else
    match (match fetchJSON basis with Ok arr => head arr | Throw _ => None end) with
    | None =>
        {| outcome := Responded 404 not_found; requests := [request basis] |}
    | Some b =>
        let warnings := pushes basis ++ flat_map pushes settling in
        let fuels := fuels (rows_of brand) in
        {| outcome :=
             match summary plate b (rows_of kleuren) fuels with
             | Throw e => Unhandled e
             | Ok s =>
                 Responded 200
                   (JObj [ ("summary", jobj s);
                           ("details", details b fuels (rows_of kleuren) (rows_of assen)
                                         warnings) ])
             end;
           requests := map request (basis :: secondary) |}
    end.

End Handler.

End Part001.

(** ** The all-or-nothing server ([src/server.js])

    All six datasets are fetched together; one failure fails the request. *)

Module Server.
Import JSString JS Data.

Inductive Dataset : Type :=
| basis | brandstof | kleur | carrosserie | carrosserie_specifiek | assen.

Definition resource (d : Dataset) : string :=
  match d with
  | basis => "m9d7-ebf2"
  | brandstof => "8ys7-d773"
  | kleur => "ihha-7xnj"
  | carrosserie => "vezc-m2t6"
  | carrosserie_specifiek => "jhie-znh9"
  | assen => "3huj-srit"
  end.

(** [`https://opendata.rdw.nl/resource/....json?kenteken=${plate}`] *)
Definition endpoint (plate : string) (d : Dataset) : string :=
  "https://opendata.rdw.nl/resource/" ++ resource d ++ ".json?kenteken=" ++ plate.

(** [if (!s || typeof s !== 'string' || s.length !== 8) return null; ...] *)
Definition parseDate (s : JSValue) : JSValue :=
  if negb (truthy s) then VNull
  else
    match s with
    | VString t =>
        if negb (String.length t =? 8)%nat then VNull
        else VString (slice t 0 4 ++ "-" ++ slice t 4 6 ++ "-" ++ slice t 6 8)
    | _ => VNull
    end.

(** [String(req.query.kenteken || '').replace(/-/g, '').toUpperCase()] *)
Definition normalize (q : option Query) : string :=
  toUpperCase (removeHyphens (kenteken_text q)).

Definition fuel_entry (b : Row) : Obj :=
  [ ("volgnummer", coerce (get b "brandstof_volgnummer"));
    ("omschrijving", or_null (get b "brandstof_omschrijving"));
    ("verbruik_buiten_l_per_100km", coerce (get b "brandstofverbruik_buiten"));
    ("verbruik_gecombineerd_l_per_100km", coerce (get b "brandstofverbruik_gecombineerd"));
    ("verbruik_stad_l_per_100km", coerce (get b "brandstofverbruik_stad"));
    ("co2_gecombineerd_g_km", coerce (get b "co2_uitstoot_gecombineerd"));
    ("emissiecode_omschrijving", or_null (get b "emissiecode_omschrijving"));
    ("uitlaatemissieniveau", or_null (get b "uitlaatemissieniveau"));
    ("nettomaximumvermogen_kw", coerce (get b "nettomaximumvermogen"));
    ("geluidsniveau_rijdend_db", coerce (get b "geluidsniveau_rijdend"));
    ("geluidsniveau_stationair_db", coerce (get b "geluidsniveau_stationair"));
    ("toerental_geluidsniveau", coerce (get b "toerental_geluidsniveau")) ].

(** [(a.volgnummer||0) - (b.volgnummer||0)] *)
Definition by_volgnummer (a b : Obj) : Num :=
  minus (or (prop a "volgnummer") (VNumber (Fin 0)))
        (or (prop b "volgnummer") (VNumber (Fin 0))).

Definition fuels (brandstofArr : RecordSet) : list Obj :=
  Array_sort by_volgnummer (map fuel_entry brandstofArr).

Definition kleur_entry (k : Row) : Obj :=
  [ ("eerste_kleur", or_null (get k "eerste_kleur"));
    ("tweede_kleur", or_null (get k "tweede_kleur")) ].

Definition kleuren (kleurArr : RecordSet) : list Obj := map kleur_entry kleurArr.

Definition carrosserie_entry (c : Row) : Obj :=
  [ ("carrosserie_volgnummer", coerce (get c "carrosserie_volgnummer"));
    ("carrosserietype_omschrijving", or_null (get c "carrosserietype_omschrijving")) ].

Definition as_entry (a : Row) : Obj :=
  [ ("asnummer", coerce (get a "asnummer"));
    ("spoorbreedte", coerce (get a "spoorbreedte"));
    ("technische_max_aslast", coerce (get a "technische_max_aslast"));
    ("wielbasis", coerce (get a "wielbasis"));
    ("aantal_assen", coerce (get a "aantal_assen"));
    ("aslast_technisch_toegestaan", coerce (get a "aslast_technisch_toegestaan")) ].

(** [basis.datum_eerste_toelating ? Number(basis.datum_eerste_toelating.slice(0,4)) : null] *)
Definition bouwjaar (b : Row) : Result JSValue :=
  let d := get b "datum_eerste_toelating" in
  if truthy d then
    match d with
    | VString s => Ok (VNumber (StringToNumber (slice s 0 4)))
    | _ => Throw (TypeError "basis.datum_eerste_toelating.slice is not a function")
    end
  else Ok VNull.

Definition summary (plate : string) (b : Row) (kleuren fuels : list Obj) : Result Obj :=
  match bouwjaar b with
  | Throw e => Throw e
  | Ok year =>
      Ok [ ("kenteken", VString plate);
           ("merk", or_null (get b "merk"));
           ("handelsbenaming", or_null (get b "handelsbenaming"));
           ("voertuigsoort", or_null (get b "voertuigsoort"));
           ("bouwjaar", year);
           ("datum_eerste_toelating", parseDate (get b "datum_eerste_toelating"));
           ("apk_vervaldatum", parseDate (get b "vervaldatum_apk"));
           ("kleur", or (first_prop kleuren "eerste_kleur") (or (get b "eerste_kleur") VNull));
           ("tweede_kleur", or (first_prop kleuren "tweede_kleur") VNull);
           ("brandstof", or (first_prop fuels "omschrijving") VNull);
           ("zitplaatsen", coerce (get b "aantal_zitplaatsen"));
           ("deuren", coerce (get b "aantal_deuren"));
           ("bpm_bruto", coerce (get b "bruto_bpm"));
           ("massa_ledig_kg", coerce (get b "massa_ledig_voertuig"));
           ("massa_rijklaar_kg", coerce (get b "massa_rijklaar"));
           ("trekgewicht_ongeremd_kg", coerce (get b "maximum_massa_trekken_ongeremd"));
           ("trekgewicht_geremd_kg", coerce (get b "maximum_trekken_massa_geremd")) ]
  end.

Definition details_basis (b : Row) : Obj :=
  [ ("voertuigsoort", or_null (get b "voertuigsoort"));
    ("merk", or_null (get b "merk"));
    ("handelsbenaming", or_null (get b "handelsbenaming"));
    ("inrichting", or_null (get b "inrichting"));
    ("catalogusprijs", coerce (get b "catalogusprijs"));
    ("cilinders", coerce (get b "aantal_cilinders"));
    ("cilinderinhoud_cc", coerce (get b "cilinderinhoud"));
    ("lengte_cm", coerce (get b "lengte"));
    ("breedte_cm", coerce (get b "breedte"));
    ("hoogte_cm", coerce (get b "hoogte_voertuig"));
    ("wielbasis_cm", coerce (get b "wielbasis"));
    ("eu_voertuigcategorie", or_null (get b "europese_voertuigcategorie"));
    ("zuinigheidsclassificatie", or_null (get b "zuinigheidsclassificatie"));
    ("type", or_null (get b "type"));
    ("variant", or_null (get b "variant"));
    ("uitvoering", or_null (get b "uitvoering"));
    ("typegoedkeuringsnummer", or_null (get b "typegoedkeuringsnummer"));
    ("datum_eerste_toelating", parseDate (get b "datum_eerste_toelating"));
    ("datum_tenaamstelling", parseDate (get b "datum_tenaamstelling"));
    ("datum_eerste_tenaamstelling_in_nederland",
       parseDate (get b "datum_eerste_tenaamstelling_in_nederland"));
    ("apk_vervaldatum", parseDate (get b "vervaldatum_apk"));
    ("wam_verzekerd", or_null (get b "wam_verzekerd"));
    ("export_indicator", or_null (get b "export_indicator"));
    ("openstaande_terugroepactie_indicator",
       or_null (get b "openstaande_terugroepactie_indicator"));
    ("taxi_indicator", or_null (get b "taxi_indicator"));
    ("tellerstandoordeel", or_null (get b "tellerstandoordeel")) ].

Definition details (basis_members : Obj) (fuels kleuren : list Obj)
    (carrosserieArr carroSpecArr asArr : RecordSet) : Json :=
  JObj [ ("basis", jobj basis_members);
         ("brandstoffen", JArr (map jobj fuels));
         ("kleuren", JArr (map jobj kleuren));
         ("carrosserie", JArr (map (fun c => jobj (carrosserie_entry c)) carrosserieArr));
         ("carrosserie_specifiek",
            JArr (map (fun c => jobj (carrosserie_entry c)) carroSpecArr));
         ("assen", JArr (map (fun a => jobj (as_entry a)) asArr)) ].

Definition all_datasets : list Dataset :=
  [basis; brandstof; kleur; carrosserie; carrosserie_specifiek; assen].

Definition not_found : Json := error_body "Geen voertuig gevonden voor kenteken.".

(** [{ error: 'RDW service fout', detail: String(e?.message || e) }] *)
Definition failure_body (e : Exn) : Json :=
  JObj [ ("error", JVal (VString "RDW service fout"));
         ("detail", JVal (VString (describe e))) ].

(** [Promise.all] over the fetches [q d] for the datasets [ds], started in
    this order: the rejection of the one that fails first, if one does. *)
Definition first_rejection {D : Type} (up : Upstream) (target : D -> string)
    (q : D -> Result RecordSet) (ds : list D) : option Exn :=
  let order := stable_sort
    (fun x y => (settled up (target y) <? settled up (target x))%nat) ds in
  head (flat_map (fun d => match q d with Throw e => [e] | Ok _ => [] end) order).

(** The value a fulfilled fetch delivers. *)
Definition value_of (r : Result RecordSet) : RecordSet :=
  match r with
  | Ok rows => rows
  | Throw _ => []
  end.

(** The body of the [try] once all six arrays are there: the status and the
    body of the response, or the exception that reaches the [catch]. *)
Definition respond (plate : string)
    (basisArr brandstofArr kleurArr carrosserieArr carroSpecArr asArr : RecordSet)
  : Result (N * Json) :=
  let b := match basisArr with row :: _ => row | [] => ∅ end in
  if negb (truthy (get b "merk")) && negb (truthy (get b "handelsbenaming")) then
    Ok (404, not_found)
  else
    let fuels := fuels brandstofArr in
    let kleuren := kleuren kleurArr in
    match summary plate b kleuren fuels with
    | Throw e => Throw e
    | Ok s =>
        Ok (200,
            JObj [ ("summary", jobj s);
                   ("details", details (details_basis b) fuels kleuren
                                 carrosserieArr carroSpecArr asArr);
                   ("_raw",
                      JObj [ ("basis", jrows basisArr);
                             ("brandstof", jrows brandstofArr);
                             ("kleur", jrows kleurArr);
                             ("carrosserie", jrows carrosserieArr);
                             ("carrosserie_specifiek", jrows carroSpecArr);
                             ("assen", jrows asArr) ]) ])
    end.

Section Handler.

Variable env : gmap string string.
Variable up : Upstream.
Variable query : option Query.

Definition plate : string := normalize query.

Definition request (d : Dataset) : Request :=
  {| url := endpoint plate d; headers := app_token_headers env |}.

(** [q(url)], once its request has been issued. *)
Definition q (d : Dataset) : Result RecordSet :=
  match answer up (endpoint plate d) with
  | Rejected e => Throw e
  | Replied r =>
      if negb (ok r) then
        Throw (Error ("RDW " ++ of_N (status r) ++ " " ++ statusText r
                      ++ " for " ++ endpoint plate d))
      else parsed r
  end.

Definition api_rdw : Run :=
  if negb (nonempty plate) then
    {| outcome := Responded 400 (error_body "kenteken ontbreekt"); requests := [] |}
  else
    {| outcome :=
         match first_rejection up (endpoint plate) q all_datasets with
         | Some e => Responded 500 (failure_body e)
         | None =>
             match respond plate
                     (value_of (q basis)) (value_of (q brandstof)) (value_of (q kleur))
                     (value_of (q carrosserie)) (value_of (q carrosserie_specifiek))
                     (value_of (q assen)) with
             | Ok (code, body) => Responded code body
             | Throw e => Responded 500 (failure_body e)
             end
         end;
       requests := map request all_datasets |}.

End Handler.

End Server.

(** ** The validating all-or-nothing server ([src/unnamed/part_000])

    This variant checks the plate against the pattern, reports the body of
    a failed fetch, and names two members of [details.basis] differently.
    Where its text is that of [server.js] (the entries of the fuel, colour,
    body and axle lists, and the year of construction) the definitions of
    [Server] are used. *)

Module Part000.
Import JSString JS Data.

(** [s => (s && s.length === 8) ? ... : null] *)
Definition parseDate (s : JSValue) : JSValue :=
  match s with
  | VString t =>
      if truthy s && (String.length t =? 8)%nat
      then VString (slice t 0 4 ++ "-" ++ slice t 4 6 ++ "-" ++ slice t 6 8)
      else VNull
  | _ => VNull
  end.

(** [String(req.query.kenteken || '').toUpperCase().replace(/-/g,'')] *)
Definition normalize (q : option Query) : string :=
  removeHyphens (toUpperCase (kenteken_text q)).

Definition summary (plate : string) (b : Row) (kleuren fuels : list Obj) : Result Obj :=
  match Server.bouwjaar b with
  | Throw e => Throw e
  | Ok year =>
      Ok [ ("kenteken", VString plate);
           ("merk", or_null (get b "merk"));
           ("handelsbenaming", or_null (get b "handelsbenaming"));
           ("voertuigsoort", or_null (get b "voertuigsoort"));
           ("bouwjaar", year);
           ("datum_eerste_toelating", parseDate (get b "datum_eerste_toelating"));
           ("apk_vervaldatum", parseDate (get b "vervaldatum_apk"));
           ("kleur", or (first_prop kleuren "eerste_kleur") (or (get b "eerste_kleur") VNull));
           ("tweede_kleur", or (first_prop kleuren "tweede_kleur") VNull);
           ("brandstof", or (first_prop fuels "omschrijving") VNull);
           ("zitplaatsen", coerce (get b "aantal_zitplaatsen"));
           ("deuren", coerce (get b "aantal_deuren"));
           ("bpm_bruto", coerce (get b "bruto_bpm"));
           ("massa_ledig_kg", coerce (get b "massa_ledig_voertuig"));
           ("massa_rijklaar_kg", coerce (get b "massa_rijklaar"));
           ("trekgewicht_ongeremd_kg", coerce (get b "maximum_massa_trekken_ongeremd"));
           ("trekgewicht_geremd_kg", coerce (get b "maximum_trekken_massa_geremd")) ]
  end.

Definition details_basis (b : Row) : Obj :=
  [ ("voertuigsoort", or_null (get b "voertuigsoort"));
    ("merk", or_null (get b "merk"));
    ("handelsbenaming", or_null (get b "handelsbenaming"));
    ("inrichting", or_null (get b "inrichting"));
    ("catalogusprijs", coerce (get b "catalogusprijs"));
    ("aantal_cilinders", coerce (get b "aantal_cilinders"));
    ("cilinderinhoud_cc", coerce (get b "cilinderinhoud"));
    ("lengte_cm", coerce (get b "lengte"));
    ("breedte_cm", coerce (get b "breedte"));
    ("hoogte_cm", coerce (get b "hoogte_voertuig"));
    ("wielbasis_cm", coerce (get b "wielbasis"));
    ("eu_voertuigcategorie", or_null (get b "europese_voertuigcategorie"));
    ("zuinigheidsclassificatie", or_null (get b "zuinigheidsclassificatie"));
    ("type", or_null (get b "type"));
    ("variant", or_null (get b "variant"));
    ("uitvoering", or_null (get b "uitvoering"));
    ("datum_eerste_toelating", parseDate (get b "datum_eerste_toelating"));
    ("datum_tenaamstelling", parseDate (get b "datum_tenaamstelling"));
    ("datum_eerste_tenaamstelling_in_nederland",
       parseDate (get b "datum_eerste_tenaamstelling_in_nederland"));
    ("apk_vervaldatum", parseDate (get b "vervaldatum_apk"));
    ("wam_verzekerd", or_null (get b "wam_verzekerd"));
    ("export_indicator", or_null (get b "export_indicator"));
    ("openstaande_terugroepactie_indicator",
       or_null (get b "openstaande_terugroepactie_indicator"));
    ("taxi_indicator", or_null (get b "taxi_indicator"));
    ("tellerstandoordeel", or_null (get b "tellerstandoordeel")) ].

(** The body of the [try] once all six arrays are there. *)
Definition respond (plate : string)
    (basisArr brandstofArr kleurArr carrosserieArr carroSpecArr asArr : RecordSet)
  : Result (N * Json) :=
  let b := match basisArr with row :: _ => row | [] => ∅ end in
  if negb (truthy (get b "merk")) && negb (truthy (get b "handelsbenaming")) then
    Ok (404, Server.not_found)
  else
    let fuels := Server.fuels brandstofArr in
    let kleuren := Server.kleuren kleurArr in
    match summary plate b kleuren fuels with
    | Throw e => Throw e
    | Ok s =>
        Ok (200,
            JObj [ ("summary", jobj s);
                   ("details", Server.details (details_basis b) fuels kleuren
                                 carrosserieArr carroSpecArr asArr);
                   ("_raw",
                      JObj [ ("basis", jrows basisArr);
                             ("brandstof", jrows brandstofArr);
                             ("kleur", jrows kleurArr);
                             ("carrosserie", jrows carrosserieArr);
                             ("carrosserie_specifiek", jrows carroSpecArr);
                             ("assen", jrows asArr) ]) ])
    end.

Section Handler.

Variable env : gmap string string.
Variable up : Upstream.
Variable query : option Query.

Definition plate : string := normalize query.

Definition request (d : Server.Dataset) : Request :=
  {| url := Server.endpoint plate d; headers := app_token_headers env |}.

(** [q(url)]; the report of a failed fetch carries the first 200 code units
    of the body.  The dash of the message is written as its UTF-8 bytes. *)
Definition q (d : Server.Dataset) : Result RecordSet :=
  match answer up (Server.endpoint plate d) with
  | Rejected e => Throw e
  | Replied r =>
      if negb (ok r) then
        Throw (Error ("RDW " ++ of_N (status r) ++ " " ++ statusText r
                      ++ " for " ++ Server.endpoint plate d
                      ++ (if nonempty (text r) then " — " ++ slice (text r) 0 200 else "")))
      else parsed r
  end.

Definition api_rdw : Run :=
  if negb (test_plate plate) then
    {| outcome := Responded 400 (error_body "Ongeldig kentekenformaat"); requests := [] |}
  else
    {| outcome :=
         match Server.first_rejection up (Server.endpoint plate) q Server.all_datasets with
         | Some e => Responded 500 (Server.failure_body e)
         | None =>
             match respond plate
                     (Server.value_of (q Server.basis)) (Server.value_of (q Server.brandstof))
                     (Server.value_of (q Server.kleur)) (Server.value_of (q Server.carrosserie))
                     (Server.value_of (q Server.carrosserie_specifiek))
                     (Server.value_of (q Server.assen)) with
             | Ok (code, body) => Responded code body
             | Throw e => Responded 500 (Server.failure_body e)
             end
         end;
       requests := map request Server.all_datasets |}.

End Handler.

End Part000.

(** ** Notions the properties are stated with *)

Module Spec.
Import JSString JS Data.

(** The status a run answered with, if it answered. *)
Definition status_of (a : Answer) : option N :=
  match a with
  | Responded code _ => Some code
  | Unhandled _ => None
  end.

(** Where a sequence number is placed by a sort that counts a missing one as
    [d]: at the number itself, and at [d] when there is none (null, or a
    number that is 0 or NaN). *)
Definition placed (d : Num) (v : JSValue) : Num :=
  match v with
  | VNumber n => if num_truthy n then n else d
  | _ => d
  end.

(** A list of fuel entries ascends by the sequence number found under [key],
    a missing one counted as [d]. *)
Definition ascending (key : string) (d : Num) (l : list Obj) : Prop :=
  StronglySorted
    (fun a b => num_le (placed d (prop a key)) (placed d (prop b key)) = true) l.

(** Following the specification: a string of exactly 8 characters gets a
    hyphen after its 4th and after its 6th character, anything else is
    null. *)
Definition hyphenated (s : string) : string :=
  match s with
  | String c1 (String c2 (String c3 (String c4 (String c5 (String c6 r))))) =>
      String c1 (String c2 (String c3 (String c4
        (String "-" (String c5 (String c6 (String "-" r)))))))
  | _ => s
  end.

Definition date_of (v : JSValue) : JSValue :=
  match v with
  | VString s => if (String.length s =? 8)%nat then VString (hyphenated s) else VNull
  | _ => VNull
  end.




Definition no_space (c : ascii) : bool := negb (is_space c).

(** The characters [A-Za-z0-9]. *)
Definition is_alnum (c : ascii) : bool := is_upper c || is_lower c || is_digit c.

(** A fetch fails when it is rejected, when it is answered with a status
    outside 200..299, or when the body of the answer is not JSON. *)
Inductive fetch_fails (up : Upstream) (target : string) : Prop :=
| network_error (e : Exn) :
    answer up target = Rejected e -> fetch_fails up target
| bad_status (r : Reply) :
    answer up target = Replied r -> ok r = false -> fetch_fails up target
| bad_body (r : Reply) (e : Exn) :
    answer up target = Replied r -> ok r = true -> parsed r = Throw e ->
    fetch_fails up target.

(** The first record of a fetched dataset, if the fetch succeeded and
    delivered one. *)
Definition first_record (r : Result RecordSet) : option Row :=
  match r with
  | Ok (b :: _) => Some b
  | _ => None
  end.

(** An upstream that has no row for the plate in any dataset. *)
Definition without_vehicle : Upstream :=
  {| answer := fun _ =>
       Replied {| status := 200; statusText := "OK"; text := "[]"; parsed := Ok [] |};
     settled := fun _ => 0%nat |}.

(** A member of an entry is what coercion leaves: null or a number. *)
Definition coerced (key : string) (a : Obj) : Prop :=
  prop a key = VNull \/ exists n, prop a key = VNumber n.

(** The quantity members of a fuel entry of [server.js] and the members of
    the row they come from. *)
Definition fuel_quantities : list (string * string) :=
  [ ("volgnummer", "brandstof_volgnummer");
    ("verbruik_buiten_l_per_100km", "brandstofverbruik_buiten");
    ("verbruik_gecombineerd_l_per_100km", "brandstofverbruik_gecombineerd");
    ("verbruik_stad_l_per_100km", "brandstofverbruik_stad");
    ("co2_gecombineerd_g_km", "co2_uitstoot_gecombineerd");
    ("nettomaximumvermogen_kw", "nettomaximumvermogen");
    ("geluidsniveau_rijdend_db", "geluidsniveau_rijdend");
    ("geluidsniveau_stationair_db", "geluidsniveau_stationair");
    ("toerental_geluidsniveau", "toerental_geluidsniveau") ].

(** The quantity members of the summary of [server.js] that are read off
    the basis row as they are. *)
Definition summary_quantities : list (string * string) :=
  [ ("zitplaatsen", "aantal_zitplaatsen");
    ("deuren", "aantal_deuren");
    ("bpm_bruto", "bruto_bpm");
    ("massa_ledig_kg", "massa_ledig_voertuig");
    ("massa_rijklaar_kg", "massa_rijklaar");
    ("trekgewicht_ongeremd_kg", "maximum_massa_trekken_ongeremd");
    ("trekgewicht_geremd_kg", "maximum_trekken_massa_geremd") ].

(** The quantity members of [details.basis], of an axle entry and of a body
    entry of [server.js]. *)
Definition details_quantities : list (string * string) :=
  [ ("catalogusprijs", "catalogusprijs");
    ("cilinders", "aantal_cilinders");
    ("cilinderinhoud_cc", "cilinderinhoud");
    ("lengte_cm", "lengte");
    ("breedte_cm", "breedte");
    ("hoogte_cm", "hoogte_voertuig");
    ("wielbasis_cm", "wielbasis") ].

Definition axle_quantities : list (string * string) :=
  [ ("asnummer", "asnummer");
    ("spoorbreedte", "spoorbreedte");
    ("technische_max_aslast", "technische_max_aslast");
    ("wielbasis", "wielbasis");
    ("aantal_assen", "aantal_assen");
    ("aslast_technisch_toegestaan", "aslast_technisch_toegestaan") ].

Definition body_quantities : list (string * string) :=
  [ ("carrosserie_volgnummer", "carrosserie_volgnummer") ].

(** A text mentions a word when the word occurs in it. *)
Fixpoint mentions (word s : string) : bool :=
  String.prefix word s
  || match s with
     | EmptyString => false
     | String _ r => mentions word r
     end.

(** A value that is a string or is falsy: what the year of construction can
    be taken from. *)
Definition text_or_falsy (v : JSValue) : bool :=
  match v with
  | VString _ => true
  | _ => negb (truthy v)
  end.

(** A member of the object a shaping function returned. *)
Definition result_prop (r : Result Obj) (key : string) : JSValue :=
  match r with
  | Ok o => prop o key
  | Throw _ => VUndefined
  end.

End Spec.

(** ** Sample data *)

Module Sample.
Import JSString JS Data.

Definition row (members : list (string * JSValue)) : Row := list_to_map members.

(** A reply with status 200 whose body parses to [rows]. *)
Definition found (rows : RecordSet) : Outcome :=
  Replied {| status := 200; statusText := "OK"; text := "[]"; parsed := Ok rows |}.

(** A reply with the given failure status and body. *)
Definition failed (code : N) (reason body : string) : Outcome :=
  Replied {| status := code; statusText := reason; text := body;
             parsed := Throw {| name := "SyntaxError"; message := "Unexpected token" |} |}.

(** An upstream that answers by the resource identifier in the URL (the
    characters 34 to 42 of every URL the servers build). *)
Definition by_resource (pick : string -> Outcome) : Upstream :=
  {| answer := fun url => pick (substring 33 9 url); settled := fun _ => 0%nat |}.

(** Three fuel rows with the sequence numbers 2, 1 and null. *)
Definition fuel_rows : RecordSet :=
  [ row [("brandstof_volgnummer", VString "2"); ("brandstof_omschrijving", VString "Elektriciteit")];
    row [("brandstof_volgnummer", VString "1"); ("brandstof_omschrijving", VString "Benzine")];
    row [("brandstof_volgnummer", VNull); ("brandstof_omschrijving", VString "LPG")] ].

(** Two fuel rows with the sequence numbers 0 and 1. *)
Definition fuel_rows_from_zero : RecordSet :=
  [ row [("brandstof_volgnummer", VString "0"); ("brandstof_omschrijving", VString "Benzine")];
    row [("brandstof_volgnummer", VString "1"); ("brandstof_omschrijving", VString "LPG")] ].

(** An upstream on which every fetch is answered with 503 and no body. *)
Definition down : Upstream :=
  by_resource (fun _ => failed 503 "Service Unavailable" "").

(** A basis row as the end-to-end example of the specification has it. *)
Definition toyota : Row :=
  row [ ("merk", VString "Toyota"); ("handelsbenaming", VString "Corolla");
        ("datum_eerste_toelating", VString "20180601") ].

(** An upstream that knows the vehicle and its fuels, has no colours, and
    fails on the axle dataset. *)
Definition axles_down : Upstream :=
  by_resource (fun id =>
    if String.eqb id "m9d7-ebf2" then found [toyota]
    else if String.eqb id "8ys7-d773" then found fuel_rows
    else if String.eqb id "3huj-srit" then failed 500 "Internal Server Error" "assen kapot"
    else found []).

(** The same vehicle in a basis row that gives the date of first admission
    as a number. *)
Definition dated_by_number : Row :=
  row [ ("merk", VString "Toyota"); ("handelsbenaming", VString "Corolla");
        ("datum_eerste_toelating", VNumber (Fin 20180601)) ].

(** The upstream [axles_down] with that basis row. *)
Definition axles_down_dated_by_number : Upstream :=
  by_resource (fun id =>
    if String.eqb id "m9d7-ebf2" then found [dated_by_number]
    else if String.eqb id "8ys7-d773" then found fuel_rows
    else if String.eqb id "3huj-srit" then failed 500 "Internal Server Error" "assen kapot"
    else found []).

(** An upstream on which the colour and the axle dataset both fail, the
    colour dataset with a message that names the axles. *)
Definition colours_and_axles_down : Upstream :=
  by_resource (fun id =>
    if String.eqb id "m9d7-ebf2" then found [toyota]
    else if String.eqb id "8ys7-d773" then found fuel_rows
    else if String.eqb id "ihha-7xnj" then failed 502 "Bad Gateway" "storing in kleuren en assen"
    else failed 500 "Internal Server Error" "assen kapot").

(** An upstream with a basis record that has neither a make nor a trade name
    and gives its date as a number. *)
Definition nameless_dated_by_number : Upstream :=
  by_resource (fun id =>
    if String.eqb id "m9d7-ebf2"
    then found [row [("kenteken", VString "AB123C");
                     ("datum_eerste_toelating", VNumber (Fin 20180601))]]
    else found []).

(** An upstream whose basis record has neither a make nor a trade name, and
    whose other datasets are empty. *)
Definition nameless : Upstream :=
  by_resource (fun id =>
    if String.eqb id "m9d7-ebf2" then found [row [("kenteken", VString "AB123C")]]
    else found []).

(** An upstream that knows the vehicle and nothing else about it. *)
Definition toyota_only : Upstream :=
  by_resource (fun id => if String.eqb id "m9d7-ebf2" then found [toyota] else found []).

(** A basis row that has both colours. *)
Definition two_colours : Row :=
  row [ ("merk", VString "VOLVO"); ("handelsbenaming", VString "V70");
        ("eerste_kleur", VString "GRIJS"); ("tweede_kleur", VString "ZWART") ].

(** The summaries of [server.js] and of the partial-tolerant variant for
    this row, an empty colour list and the three fuel rows. *)
Definition server_summary : Obj :=
  Eval vm_compute in
    match Server.summary "AB123C" two_colours (Server.kleuren []) (Server.fuels fuel_rows) with
    | Ok s => s
    | Throw _ => []
    end.

Definition part001_summary : Obj :=
  Eval vm_compute in
    match Part001.summary "AB123C" two_colours [] (Part001.fuels fuel_rows) with
    | Ok s => s
    | Throw _ => []
    end.

End Sample.

(** ** The other routes and the start of the servers *)

Module Site.
Import JSString JS Data.

Definition dquote : ascii := "034"%char.
Definition backslash : ascii := "092"%char.

Definition hex_lower (n : N) : ascii :=
  if n <? 10 then ascii_of_N (48 + n) else ascii_of_N (87 + n).

(** The escape of a control character that has no short form. *)
Definition unicode_escape (n : N) : string :=
  String backslash
    (String "u" (String "0" (String "0"
      (String (hex_lower (n / 16)) (String (hex_lower (n mod 16)) EmptyString))))).

(** What [JSON.stringify] writes for one code unit of a string. *)
Definition quote_char (c : ascii) : string :=
  if code c =? 8 then String backslash "b"
  else if code c =? 9 then String backslash "t"
  else if code c =? 10 then String backslash "n"
  else if code c =? 12 then String backslash "f"
  else if code c =? 13 then String backslash "r"
  else if code c =? 34 then String backslash (String dquote EmptyString)
  else if code c =? 92 then String backslash (String backslash EmptyString)
  else if code c <? 32 then unicode_escape (code c)
  else String c EmptyString.

Fixpoint quote_chars (s : string) : string :=
  match s with
  | EmptyString => EmptyString
  | String c r => quote_char c ++ quote_chars r
  end.

(** [JSON.stringify(s)] for a string. *)
Definition JSON_stringify (s : string) : string :=
  String dquote (quote_chars s ++ String dquote EmptyString).

(** [process.env.NAME || ''] *)
Definition env_or_empty (env : gmap string string) (name : string) : string :=
  match env !! name with
  | Some v => v
  | None => ""
  end.

(** [!!process.env.NAME] *)
Definition configured (env : gmap string string) (name : string) : bool :=
  match env !! name with
  | Some v => nonempty v
  | None => false
  end.

(** A response that is not JSON: its media type, the headers set by hand,
    and its body. *)
Record Page : Type := {
  media_type : string;
  page_headers : list (string * string);
  page_body : string
}.

(** [GET /env.js] of [server.js]. *)
Definition server_env_js (env : gmap string string) : Page :=
  let url := env_or_empty env "SUPABASE_URL" in
  let anon := env_or_empty env "SUPABASE_ANON_KEY" in
  {| media_type := "application/javascript";
     page_headers := [("Cache-Control", "no-store")];
     page_body := "window.__SUPABASE_URL__=" ++ JSON_stringify url
                  ++ ";window.__SUPABASE_ANON_KEY__=" ++ JSON_stringify anon ++ ";" |}.

(** The line break and the indentation between the two statements of the
    script of the partial-tolerant variant. *)
Definition line_break : string := String "010" "     ".

(** [GET /env.js] of the partial-tolerant variant. *)
Definition part001_env_js (env : gmap string string) : Page :=
  let url := env_or_empty env "SUPABASE_URL" in
  let anon := env_or_empty env "SUPABASE_ANON_KEY" in
  {| media_type := "application/javascript";
     page_headers := [("Cache-Control", "no-store")];
     page_body := "window.__SUPABASE_URL__=" ++ JSON_stringify url ++ ";" ++ line_break
                  ++ "window.__SUPABASE_ANON_KEY__=" ++ JSON_stringify anon ++ ";" |}.

(** [GET /api/health] of [server.js]. *)
Definition health (env : gmap string string) : Json :=
  JObj [ ("ok", JVal (VBool true));
         ("env", JObj [ ("supabase", JVal (VBool (configured env "SUPABASE_URL")));
                        ("rdwAppToken", JVal (VBool (configured env "RDW_APP_TOKEN"))) ]) ].

(** The origins that [part_000] lets in. *)
Definition part000_allowed : gset string :=
  {[ "http://127.0.0.1:3001"; "http://localhost:3001";
     "http://127.0.0.1:5500"; "http://localhost:5500";
     "http://127.0.0.1:15500"; "http://localhost:15500";
     "https://prodrivenet.com"; "https://www.prodrivenet.com" ]}.

(** The origins that the partial-tolerant variant lets in. *)
Definition part001_allowed : gset string :=
  {[ "http://127.0.0.1:3001"; "http://localhost:3001";
     "http://127.0.0.1:5500"; "http://localhost:5500";
     "https://prodrivenet.com"; "https://www.prodrivenet.com";
     "https://e-noer.nl"; "https://www.e-noer.nl" ]}.

(** [(origin, cb) => (!origin ? cb(null, true) : cb(null, allowed.has(origin)))]:
    what the callback is given for the origin of a request, which is absent
    when the request has no Origin header. *)
Definition origin_check (allowed : gset string) (origin : option string) : bool :=
  match origin with
  | None => true
  | Some o => if nonempty o then bool_decide (o ∈ allowed) else true
  end.

(** [Number(process.env.PORT || 3001)] *)
Definition PORT (env : gmap string string) : Num :=
  match env !! "PORT" with
  | Some v => if nonempty v then StringToNumber v else Fin 3001
  | None => Fin 3001
  end.

End Site.

(** ** Reading a script back *)

Module Reading.
Import JSString JS Data Site.

Definition hex_value (c : ascii) : option N := digit_value 16 c.

(** The characters of a double-quoted string literal of JavaScript up to
    its closing quote, and what follows the literal.  A line break inside a
    literal, an unknown escape and a missing closing quote are errors. *)
Fixpoint read_chars (s : string) : option (string * string) :=
  match s with
  | EmptyString => None
  | String c r =>
      if code c =? 34 then Some (EmptyString, r)
      else if (code c =? 10) || (code c =? 13) then None
      else if code c =? 92 then
        match r with
        | String e r' =>
            if code e =? 117 then
              match r' with
              | String h1 (String h2 (String h3 (String h4 rest))) =>
                  match hex_value h1, hex_value h2, hex_value h3, hex_value h4 with
                  | Some a, Some b, Some c', Some d =>
                      let n := ((a * 16 + b) * 16 + c') * 16 + d in
                      if n <? 256 then
                        match read_chars rest with
                        | Some (t, after) => Some (String (ascii_of_N n) t, after)
                        | None => None
                        end
                      else None
                  | _, _, _, _ => None
                  end
              | _ => None
              end
            else
              let plain :=
                if code e =? 98 then Some "008"%char
                else if code e =? 116 then Some "009"%char
                else if code e =? 110 then Some "010"%char
                else if code e =? 102 then Some "012"%char
                else if code e =? 114 then Some "013"%char
                else if (code e =? 34) || (code e =? 92) || (code e =? 47) then Some e
                else None in
              match plain, read_chars r' with
              | Some x, Some (t, after) => Some (String x t, after)
              | _, _ => None
              end
        | EmptyString => None
        end
      else
        match read_chars r with
        | Some (t, after) => Some (String c t, after)
        | None => None
        end
  end.

(** A string literal at the start of [s]: its value and what follows. *)
Definition read_literal (s : string) : option (string * string) :=
  match s with
  | String c r => if code c =? 34 then read_chars r else None
  | EmptyString => None
  end.

(** [s] without the prefix [p], when it starts with it. *)
Fixpoint after_prefix (p s : string) : option string :=
  match p, s with
  | EmptyString, _ => Some s
  | String a p', String b s' => if Ascii.eqb a b then after_prefix p' s' else None
  | _, EmptyString => None
  end.

(** The statement [window.NAME="...";] at the start of a script: the value
    assigned and the rest of the script. *)
Definition read_assignment (name script : string) : option (string * string) :=
  match after_prefix ("window." ++ name ++ "=") script with
  | Some s =>
      match read_literal s with
      | Some (v, String c rest) => if code c =? 59 then Some (v, rest) else None
      | _ => None
      end
  | None => None
  end.

(** The two values a browser gets from the script of [/env.js]; white space
    may separate the two statements. *)
Definition read_env_js (script : string) : option (string * string) :=
  match read_assignment "__SUPABASE_URL__" script with
  | Some (url, rest) =>
      match read_assignment "__SUPABASE_ANON_KEY__" (trimStart rest) with
      | Some (anon, EmptyString) => Some (url, anon)
      | _ => None
      end
  | None => None
  end.

End Reading.

(** * Properties *)

Import JSString JS Data Spec.

(** ** The model on the examples of the specification *)

Example Number_examples :
  StringToNumber "150" = Fin 150
  /\ StringToNumber "0" = Fin 0
  /\ StringToNumber " 5.50 " = Fin (11 # 2)
  /\ StringToNumber "-25e-2" = Fin (-1 # 4)
  /\ StringToNumber "0.1" = Fin (3602879701896397 # 36028797018963968)
  /\ StringToNumber "9007199254740993" = Fin 9007199254740992
  /\ StringToNumber "9007199254740995" = Fin 9007199254740996
  /\ StringToNumber "1e400" = Inf false
  /\ StringToNumber "1e-400" = Fin 0
  /\ StringToNumber "5e-324" = Fin (1 # Pos.pow 2 1074)
  /\ StringToNumber "1.7976931348623157e308" = Fin (inject_Z (2 ^ 1024 - 2 ^ 971))
  /\ StringToNumber "1.7976931348623159e308" = Inf false
  /\ StringToNumber "0x1F" = Fin 31
  /\ StringToNumber "" = Fin 0
  /\ StringToNumber ".5" = Fin (1 # 2)
  /\ StringToNumber "5." = Fin 5
  /\ StringToNumber "." = NaN
  /\ StringToNumber "1e" = NaN
  /\ StringToNumber "12px" = NaN
  /\ StringToNumber "-Infinity" = Inf true
  /\ StringToNumber "-0x10" = NaN.
Proof. repeat split; vm_compute; reflexivity. Qed.

Example string_examples :
  toUpperCase "ab-12-cd" = "AB-12-CD"
  /\ trim "  a b " = "a b"
  /\ slice "20230115" 4 6 = "01"
  /\ slice "abc" 0 140 = "abc"
  /\ of_N 502 = "502"
  /\ encodeURIComponent "A b&c" = "A%20b%26c"
  /\ String_of (QArray [QString "a"; QString "b"]) = "a,b".
Proof. repeat split; reflexivity. Qed.

(** The end-to-end example: a Toyota first admitted on 2018-06-01, with
    empty secondary datasets. *)
Example end_to_end :
  forall body,
    outcome (Part001.api_rdw ∅ Sample.toyota_only (Some (QString "AB-123-C")))
      = Responded 200 body ->
    path ["summary"; "merk"] body = Some (JVal (VString "Toyota"))
    /\ path ["summary"; "bouwjaar"] body = Some (JVal (VNumber (Fin 2018)))
    /\ path ["summary"; "datum_eerste_toelating"] body = Some (JVal (VString "2018-06-01"))
    /\ path ["summary"; "brandstof"] body = Some (JVal VNull).
Proof.
  intros body H. vm_compute in H. injection H as <-. repeat split; reflexivity.
Qed.

Example end_to_end_server :
  status_of (outcome (Server.api_rdw ∅ Sample.toyota_only (Some (QString "AB-123-C"))))
  = Some 200
  /\ status_of (outcome (Part000.api_rdw ∅ Sample.toyota_only (Some (QString "AB-123-C"))))
    = Some 200
  /\ status_of (outcome (Part001.api_rdw ∅ Sample.toyota_only (Some (QString "AB-123-C"))))
    = Some 200.
Proof. repeat split; vm_compute; reflexivity. Qed.

(** ** The stable sort *)

Section StableSort.

Context {A : Type} (later : A -> A -> bool).

Lemma place_perm (x : A) (l : list A) : Permutation (place later x l) (x :: l).
Proof.
  induction l as [|y r IH]; simpl.
  - apply Permutation_refl.
  - destruct (later x y).
    + apply Permutation_trans with (y :: x :: r).
      * apply perm_skip, IH.
      * apply perm_swap.
    + apply Permutation_refl.
Qed.

Lemma stable_sort_perm (l : list A) : Permutation (stable_sort later l) l.
Proof.
  induction l as [|x r IH]; simpl.
  - apply perm_nil.
  - apply Permutation_trans with (x :: stable_sort later r).
    + apply place_perm.
    + apply perm_skip, IH.
Qed.

(** The order [R] that the sort establishes, on the elements that satisfy
    [good]: [later] decides it, and it is transitive. *)
Variable R : A -> A -> Prop.
Variable good : A -> Prop.
Hypothesis not_later : forall x y, good x -> good y -> later x y = false -> R x y.
Hypothesis is_later : forall x y, good x -> good y -> later x y = true -> R y x.
Hypothesis R_trans : forall x y z, R x y -> R y z -> R x z.

Lemma place_sorted (x : A) (l : list A) :
  good x -> Forall good l -> StronglySorted R l -> StronglySorted R (place later x l).
Proof using not_later is_later R_trans.
  intros Hx Hl Hs. induction Hs as [|y r Hs IH Hy]; simpl.
  - constructor; [constructor | constructor].
  - inversion Hl as [|? ? Hgy Hgr]; subst.
    destruct (later x y) eqn:E.
    + constructor; [apply IH; assumption |].
      apply List.Forall_forall. intros z Hz.
      apply (Permutation_in _ (place_perm x r)) in Hz.
      destruct Hz as [<- | Hz].
      * apply is_later; assumption.
      * revert z Hz. apply List.Forall_forall. exact Hy.
    + constructor; [constructor; assumption |].
      constructor; [apply not_later; assumption |].
      apply List.Forall_forall. intros z Hz.
      apply R_trans with y; [apply not_later; assumption |].
      revert z Hz. apply List.Forall_forall. exact Hy.
Qed.

Lemma stable_sort_good (l : list A) : Forall good l -> Forall good (stable_sort later l).
Proof using Type.
  intros H. apply List.Forall_forall. intros z Hz.
  apply (Permutation_in _ (stable_sort_perm l)) in Hz.
  revert z Hz. apply List.Forall_forall. exact H.
Qed.

Lemma stable_sort_sorted (l : list A) :
  Forall good l -> StronglySorted R (stable_sort later l).
Proof using not_later is_later R_trans.
  induction l as [|x r IH]; simpl; intros H.
  - constructor.
  - inversion H; subst.
    apply place_sorted; [assumption | apply stable_sort_good; assumption | apply IH; assumption].
Qed.

End StableSort.

(** ** The order of numbers *)

Lemma num_le_trans (x y z : Num) :
  num_le x y = true -> num_le y z = true -> num_le x z = true.
Proof.
  destruct x as [| [|] | p], y as [| [|] | q], z as [| [|] | r]; simpl;
    try reflexivity; try discriminate.
  rewrite !Qle_bool_iff. apply Qle_trans.
Qed.

Lemma Qred_le_zero (p q : Q) : Qle_bool (Qred (p - q)) 0 = true <-> (p <= q)%Q.
Proof.
  rewrite Qle_bool_iff, Qred_correct. split; intros H; lra.
Qed.

Lemma sub_not_positive (x y : Num) :
  x <> NaN -> y <> NaN -> num_positive (num_sub x y) = false -> num_le x y = true.
Proof.
  destruct x as [| [|] | p], y as [| [|] | q]; simpl;
    try reflexivity; try discriminate; try congruence.
  intros _ _ H. apply negb_false_iff in H.
  apply Qle_bool_iff. apply Qred_le_zero. exact H.
Qed.

Lemma sub_positive (x y : Num) :
  num_positive (num_sub x y) = true -> num_le y x = true.
Proof.
  destruct x as [| [|] | p], y as [| [|] | q]; simpl;
    try reflexivity; try discriminate.
  intros H. apply negb_true_iff in H.
  apply Qle_bool_iff.
  destruct (Qlt_le_dec p q) as [Hlt | Hle]; [| exact Hle].
  exfalso. apply Qlt_le_weak, Qred_le_zero in Hlt. congruence.
Qed.

(** ** Coercion *)

Lemma coerce_shape (v : JSValue) : coerce v = VNull \/ exists n, coerce v = VNumber n.
Proof.
  unfold coerce. destruct (truthy v); [right; eexists; reflexivity | left; reflexivity].
Qed.

(** On a coerced value the key of the comparator is where [placed] puts it,
    and it is a number. *)
Lemma key_placed (d : Num) (v : JSValue) :
  (v = VNull \/ exists n, v = VNumber n) -> num_truthy d = true \/ d = Fin 0 ->
  Number (or v (VNumber d)) = placed d v /\ placed d v <> NaN.
Proof.
  intros Hv Hd.
  assert (Hnum : d <> NaN) by (destruct Hd as [Hd | ->]; [intros -> |]; discriminate).
  destruct Hv as [-> | [n ->]]; unfold or, placed; simpl.
  - split; [reflexivity | exact Hnum].
  - destruct (num_truthy n) eqn:E; simpl.
    + split; [reflexivity | intros ->; discriminate].
    + split; [reflexivity | exact Hnum].
Qed.

(** ** The order of the fuel list *)

Lemma sorted_by_key (key : string) (d : Num) (entries : list Obj) :
  num_truthy d = true \/ d = Fin 0 ->
  Forall (coerced key) entries ->
  ascending key d
    (Array_sort (fun a b => minus (or (prop a key) (VNumber d)) (or (prop b key) (VNumber d)))
       entries).
Proof.
  intros Hd Hall. unfold ascending, Array_sort.
  apply stable_sort_sorted with (good := coerced key); [| | | exact Hall].
  - intros x y Hx Hy H. unfold minus in H.
    destruct (key_placed d _ Hx Hd) as [Ex Nx], (key_placed d _ Hy Hd) as [Ey Ny].
    rewrite Ex, Ey in H. apply sub_not_positive; assumption.
  - intros x y Hx Hy H. unfold minus in H.
    destruct (key_placed d _ Hx Hd) as [Ex _], (key_placed d _ Hy Hd) as [Ey _].
    rewrite Ex, Ey in H. apply sub_positive; assumption.
  - intros x y z. apply num_le_trans.
Qed.

Lemma server_entries_coerced (rows : RecordSet) :
  Forall (coerced "volgnummer") (map Server.fuel_entry rows).
Proof.
  apply List.Forall_forall. intros a Ha. apply in_map_iff in Ha.
  destruct Ha as [b [<- _]]. apply coerce_shape.
Qed.

Lemma part001_entries_coerced (rows : RecordSet) :
  Forall (coerced "brandstof_volgnummer") (map Part001.fuel_entry rows).
Proof.
  apply List.Forall_forall. intros a Ha. apply in_map_iff in Ha.
  destruct Ha as [b [<- _]]. apply coerce_shape.
Qed.

(** C5, as amended.  Every variant sorts the whole mapped fuel list by a
    fixed key of its own: [server.js] orders it ascending by the sequence
    number with a missing one (null, 0 or NaN) counted as 0, the
    partial-tolerant variant with a missing one counted as 99.  Sequence
    numbers 2, 1, null therefore come out as null, 1, 2 in [server.js] and
    as 1, 2, null in the partial-tolerant variant. *)
Theorem fuels_sorted_by_volgnummer (rows : RecordSet) :
  (Permutation (Server.fuels rows) (map Server.fuel_entry rows)
   /\ ascending "volgnummer" (Fin 0) (Server.fuels rows))
  /\ (Permutation (Part001.fuels rows) (map Part001.fuel_entry rows)
      /\ ascending "brandstof_volgnummer" (Fin 99) (Part001.fuels rows))
  /\ map (fun a => prop a "volgnummer") (Server.fuels Sample.fuel_rows)
     = [VNull; VNumber (Fin 1); VNumber (Fin 2)]
  /\ map (fun a => prop a "brandstof_volgnummer") (Part001.fuels Sample.fuel_rows)
     = [VNumber (Fin 1); VNumber (Fin 2); VNull].
Proof.
  repeat split.
  - apply stable_sort_perm.
  - apply sorted_by_key; [right; reflexivity | apply server_entries_coerced].
  - apply stable_sort_perm.
  - apply sorted_by_key; [left; reflexivity | apply part001_entries_coerced].
Qed.

(** No placement of null is both at most 1 and at least 2. *)
Lemma no_place_between_first_and_last (d : Num) :
  num_le (placed d VNull) (placed d (VNumber (Fin 1))) = true ->
  num_le (placed d (VNumber (Fin 2))) (placed d VNull) = true -> False.
Proof.
  destruct d as [| [|] | q]; simpl; try discriminate.
  rewrite !Qle_bool_iff. intros H1 H2. lra.
Qed.

(** C5 as stated fails.  With the sequence numbers 0 and 1 the
    partial-tolerant variant lists 1 before 0, so its list does not ascend by
    the coerced sequence number; and on 2, 1, null the two variants place the
    null entry at opposite ends, so no single placement serves both. *)
Lemma fuels_tie_break_differs :
  map (fun a => prop a "brandstof_volgnummer") (Part001.fuels Sample.fuel_rows_from_zero)
    = [VNumber (Fin 1); VNumber (Fin 0)]
  /\ map (fun a => prop a "volgnummer") (Server.fuels Sample.fuel_rows_from_zero)
    = [VNumber (Fin 0); VNumber (Fin 1)]
  /\ map (fun a => prop a "volgnummer") (Server.fuels Sample.fuel_rows)
    = [VNull; VNumber (Fin 1); VNumber (Fin 2)]
  /\ map (fun a => prop a "brandstof_volgnummer") (Part001.fuels Sample.fuel_rows)
    = [VNumber (Fin 1); VNumber (Fin 2); VNull]
  /\ (forall d : Num,
        ascending "volgnummer" d (Server.fuels Sample.fuel_rows) ->
        ascending "brandstof_volgnummer" d (Part001.fuels Sample.fuel_rows) -> False).
Proof.
  repeat split; try (vm_compute; reflexivity).
  intros d Hs Hp.
  assert (Es : Server.fuels Sample.fuel_rows
               = map Server.fuel_entry
                   [ Sample.row [("brandstof_volgnummer", VNull); ("brandstof_omschrijving", VString "LPG")];
                     Sample.row [("brandstof_volgnummer", VString "1"); ("brandstof_omschrijving", VString "Benzine")];
                     Sample.row [("brandstof_volgnummer", VString "2"); ("brandstof_omschrijving", VString "Elektriciteit")] ])
    by (vm_compute; reflexivity).
  assert (Ep : Part001.fuels Sample.fuel_rows
               = map Part001.fuel_entry
                   [ Sample.row [("brandstof_volgnummer", VString "1"); ("brandstof_omschrijving", VString "Benzine")];
                     Sample.row [("brandstof_volgnummer", VString "2"); ("brandstof_omschrijving", VString "Elektriciteit")];
                     Sample.row [("brandstof_volgnummer", VNull); ("brandstof_omschrijving", VString "LPG")] ])
    by (vm_compute; reflexivity).
  rewrite Es in Hs. rewrite Ep in Hp. clear Es Ep.
  unfold ascending in Hs, Hp.
  apply StronglySorted_inv in Hs. destruct Hs as [_ Hs].
  apply Forall_inv in Hs.
  apply StronglySorted_inv in Hp. destruct Hp as [Hp _].
  apply StronglySorted_inv in Hp. destruct Hp as [_ Hp].
  apply Forall_inv in Hp.
  exact (no_place_between_first_and_last d Hs Hp).
Qed.

(** ** Dates *)

Lemma parseDate_variants (s : string) :
  Server.parseDate (VString s) = date_of (VString s)
  /\ Part001.parseDate (VString s) = date_of (VString s).
Proof.
  do 9 (destruct s as [|? s]; [split; reflexivity |]).
  split; reflexivity.
Qed.

(** C6.  In both forms in which the servers write it, parseDate gives the
    string with a hyphen after its 4th and after its 6th character exactly
    when its argument is a string of 8 characters, and null otherwise; no
    calendar check is made. *)
Theorem parseDate_inserts_hyphens (v : JSValue) :
  Server.parseDate v = date_of v
  /\ Part001.parseDate v = date_of v
  /\ Server.parseDate (VString "20230115") = VString "2023-01-15"
  /\ Part001.parseDate (VString "20230115") = VString "2023-01-15"
  /\ Server.parseDate (VString "99999999") = VString "9999-99-99"
  /\ Part001.parseDate (VString "99999999") = VString "9999-99-99"
  /\ Server.parseDate (VString "2023") = VNull
  /\ Part001.parseDate (VString "2023") = VNull
  /\ Server.parseDate (VString "202301151") = VNull
  /\ Part001.parseDate (VString "202301151") = VNull
  /\ Server.parseDate VUndefined = VNull
  /\ Part001.parseDate VUndefined = VNull.
Proof.
  split; [| split; [| repeat split]].
  - destruct v as [| | [|] | n | s]; try reflexivity.
    + unfold Server.parseDate. simpl. destruct (num_truthy n); reflexivity.
    + apply parseDate_variants.
  - destruct v as [| | [|] | n | s]; try reflexivity. apply parseDate_variants.
Qed.

(** ** Numeric coercion *)

Lemma coerce_null_iff (v : JSValue) : coerce v = VNull <-> truthy v = false.
Proof.
  unfold coerce. destruct (truthy v); split; intros H; try reflexivity; discriminate.
Qed.

(** C2, as amended.  Every quantity member of the response is
    [v ? Number(v) : null] of its source (the year of construction is that
    of the first four characters of the date).  A value collapses to null
    exactly when it is falsy: the empty string and the number 0 do, the
    string "0" does not (a non-empty string is truthy) and comes out as the
    number 0; "150" comes out as 150. *)
Theorem coerce_rule (v : JSValue) (b : Row) :
  coerce v = (if truthy v then VNumber (Number v) else VNull)
  /\ (coerce v = VNull <-> truthy v = false)
  /\ coerce (VString "0") = VNumber (Fin 0)
  /\ coerce (VString "150") = VNumber (Fin 150)
  /\ coerce (VString "") = VNull
  /\ coerce (VNumber (Fin 0)) = VNull
  /\ Forall (fun m => prop (Server.fuel_entry b) (fst m) = coerce (get b (snd m)))
       fuel_quantities
  /\ Forall (fun m => prop (Server.details_basis b) (fst m) = coerce (get b (snd m)))
       details_quantities
  /\ Forall (fun m => prop (Server.as_entry b) (fst m) = coerce (get b (snd m)))
       axle_quantities
  /\ Forall (fun m => prop (Server.carrosserie_entry b) (fst m) = coerce (get b (snd m)))
       body_quantities
  /\ (forall plate kleuren fuels s,
        Server.summary plate b kleuren fuels = Ok s ->
        Forall (fun m => prop s (fst m) = coerce (get b (snd m))) summary_quantities).
Proof.
  split; [reflexivity |]. split; [apply coerce_null_iff |].
  do 4 (split; [reflexivity |]).
  do 4 (split; [repeat constructor |]).
  intros plate kleuren fuels s H. unfold Server.summary in H.
  destruct (Server.bouwjaar b); [| discriminate].
  injection H as <-. repeat constructor.
Qed.

(** C2 as stated fails: the string "0" is truthy, so it is converted to the
    number 0 and not to null. *)
Lemma coerce_zero_string :
  truthy (VString "0") = true
  /\ coerce (VString "0") = VNumber (Fin 0)
  /\ VNumber (Fin 0) <> VNull.
Proof. repeat split. discriminate. Qed.

(** ** The colours and the fuel of the summary *)

(** C8, as amended.  In the summary, brandstof is the description of the
    first entry of the sorted fuel list (or null); kleur is the first colour
    row's first colour, else the basis row's first colour, else null;
    tweede_kleur is the first colour row's second colour, else null: it has
    no fallback to the basis row.  With an empty colour list kleur is the
    basis row's first colour (or null) and tweede_kleur is null. *)
Theorem summary_backfill (plate : string) (b : Row) (kleurArr brandstofArr : RecordSet)
    (s s' : Obj) :
  Server.summary plate b (Server.kleuren kleurArr) (Server.fuels brandstofArr) = Ok s ->
  Part001.summary plate b kleurArr (Part001.fuels brandstofArr) = Ok s' ->
  (prop s "brandstof" = or_null (first_prop (Server.fuels brandstofArr) "omschrijving")
   /\ prop s "kleur" = or (first_get kleurArr "eerste_kleur") (or_null (get b "eerste_kleur"))
   /\ prop s "tweede_kleur" = or_null (first_get kleurArr "tweede_kleur")
   /\ (kleurArr = [] ->
       prop s "kleur" = or_null (get b "eerste_kleur") /\ prop s "tweede_kleur" = VNull))
  /\ (prop s' "brandstof" = or_null (first_prop (Part001.fuels brandstofArr) "omschrijving")
      /\ prop s' "kleur" = or (first_get kleurArr "eerste_kleur") (or_null (get b "eerste_kleur"))
      /\ prop s' "tweede_kleur" = or_null (first_get kleurArr "tweede_kleur")
      /\ (kleurArr = [] ->
          prop s' "kleur" = or_null (get b "eerste_kleur") /\ prop s' "tweede_kleur" = VNull)).
Proof.
  unfold Server.summary, Part001.summary.
  replace (Part001.bouwjaar b) with (Server.bouwjaar b) by reflexivity.
  destruct (Server.bouwjaar b) as [year | e]; [| discriminate].
  intros Hs Hs'. injection Hs as <-. injection Hs' as <-.
  split.
  - change (or (first_prop (Server.fuels brandstofArr) "omschrijving") VNull
            = or_null (first_prop (Server.fuels brandstofArr) "omschrijving")
            /\ or (first_prop (Server.kleuren kleurArr) "eerste_kleur")
                 (or (get b "eerste_kleur") VNull)
               = or (first_get kleurArr "eerste_kleur") (or_null (get b "eerste_kleur"))
            /\ or (first_prop (Server.kleuren kleurArr) "tweede_kleur") VNull
               = or_null (first_get kleurArr "tweede_kleur")
            /\ (kleurArr = [] ->
                or (first_prop (Server.kleuren kleurArr) "eerste_kleur")
                   (or (get b "eerste_kleur") VNull) = or_null (get b "eerste_kleur")
                /\ or (first_prop (Server.kleuren kleurArr) "tweede_kleur") VNull = VNull)).
    split; [reflexivity |].
    destruct kleurArr as [| k rest].
    + repeat split; reflexivity.
    + simpl. unfold or_null, or.
      repeat split; try discriminate.
      * destruct (truthy (get k "eerste_kleur")) eqn:E; simpl; [rewrite E |]; reflexivity.
      * destruct (truthy (get k "tweede_kleur")) eqn:E; simpl; [rewrite E |]; reflexivity.
  - split; [reflexivity |]. split; [reflexivity |]. split; [reflexivity |].
    intros ->. split; reflexivity.
Qed.

(** C8 at a basis row with two colours and an empty colour list. *)
Lemma summary_backfill_witness :
  prop Sample.server_summary "kleur" = VString "GRIJS"
  /\ prop Sample.part001_summary "kleur" = VString "GRIJS".
Proof.
  destruct (summary_backfill "AB123C" Sample.two_colours [] Sample.fuel_rows _ _
              ltac:(vm_compute; reflexivity) ltac:(vm_compute; reflexivity))
    as [[_ [_ [_ H]]] [_ [_ [_ H']]]].
  split.
  - exact (proj1 (H eq_refl)).
  - exact (proj1 (H' eq_refl)).
Defined.

(** C8 as stated fails: with an empty colour list, tweede_kleur is null even
    when the basis row has a second colour. *)
Lemma tweede_kleur_has_no_fallback :
  get Sample.two_colours "tweede_kleur" = VString "ZWART"
  /\ result_prop (Server.summary "AB123C" Sample.two_colours (Server.kleuren []) (Server.fuels []))
       "tweede_kleur" = VNull
  /\ result_prop (Part001.summary "AB123C" Sample.two_colours [] (Part001.fuels []))
       "tweede_kleur" = VNull
  /\ result_prop (Server.summary "AB123C" Sample.two_colours (Server.kleuren []) (Server.fuels []))
       "kleur" = VString "GRIJS".
Proof. repeat split; vm_compute; reflexivity. Qed.

(** ** Outbound headers *)

Lemma app_token_headers_other (env : gmap string string) (other secret : string) :
  other <> "RDW_APP_TOKEN" ->
  app_token_headers (<[other := secret]> env) = app_token_headers env.
Proof.
  intros H. unfold app_token_headers. rewrite lookup_insert_ne by exact H. reflexivity.
Qed.

Lemma server_sends_token_only (env : gmap string string) (up : Upstream) (q : option Query) :
  Forall (fun r => headers r = app_token_headers env) (requests (Server.api_rdw env up q)).
Proof.
  unfold Server.api_rdw. destruct (negb _); simpl; repeat constructor.
Qed.

Lemma part000_sends_token_only (env : gmap string string) (up : Upstream) (q : option Query) :
  Forall (fun r => headers r = app_token_headers env) (requests (Part000.api_rdw env up q)).
Proof.
  unfold Part000.api_rdw. destruct (negb _); simpl; repeat constructor.
Qed.

Lemma part001_sends_token_only (env : gmap string string) (up : Upstream) (q : option Query) :
  Forall (fun r => headers r = app_token_headers env) (requests (Part001.api_rdw env up q)).
Proof.
  unfold Part001.api_rdw. destruct (negb _); simpl; [constructor |].
  destruct (match Part001.fetchJSON env up q Part001.basis with
            | Ok arr => head arr
            | Throw _ => None
            end); simpl; repeat constructor.
Qed.

(** C7.  Every request a handler sends upstream carries the header
    X-App-Token with the configured token when one is configured (and not
    empty), and no header otherwise; and no other variable of the
    environment (a second, more sensitive credential among them) has any
    influence on the run, hence on the requests and their headers. *)
Theorem outbound_headers_app_token_only
    (env : gmap string string) (up : Upstream) (q : option Query) :
  Forall (fun r => headers r = match env !! "RDW_APP_TOKEN" with
                               | Some token =>
                                   if nonempty token then [("X-App-Token", token)] else []
                               | None => []
                               end)
    (requests (Server.api_rdw env up q) ++ requests (Part000.api_rdw env up q)
     ++ requests (Part001.api_rdw env up q))
  /\ (forall other secret : string, other <> "RDW_APP_TOKEN" ->
        Server.api_rdw (<[other := secret]> env) up q = Server.api_rdw env up q
        /\ Part000.api_rdw (<[other := secret]> env) up q = Part000.api_rdw env up q
        /\ Part001.api_rdw (<[other := secret]> env) up q = Part001.api_rdw env up q).
Proof.
  split.
  - repeat apply Forall_app_2.
    + apply server_sends_token_only.
    + apply part000_sends_token_only.
    + apply part001_sends_token_only.
  - intros other secret H.
    unfold Server.api_rdw, Part000.api_rdw, Part001.api_rdw.
    unfold Server.request, Part000.request, Part001.request.
    rewrite (app_token_headers_other env other secret H).
    repeat split; reflexivity.
Qed.

(** ** The partial-tolerant handler *)

Lemma perm_filter_flat_map {A B : Type} (f : A -> list B) (p : B -> bool) (l l' : list A) :
  Permutation l l' ->
  Permutation (List.filter p (flat_map f l)) (List.filter p (flat_map f l')).
Proof.
  induction 1 as [| x l l' _ IH | x y l | l l' l'' _ IH1 _ IH2]; simpl.
  - apply perm_nil.
  - rewrite !List.filter_app. apply Permutation_app_head, IH.
  - rewrite !List.filter_app. apply Permutation_app_swap_app.
  - apply Permutation_trans with (List.filter p (flat_map f l')); assumption.
Qed.

Lemma prefix_empty (s : string) : String.prefix "" s = true.
Proof. destruct s; reflexivity. Qed.

Lemma substring_length_le (n m : nat) (s : string) :
  (String.length (substring n m s) <= m)%nat.
Proof.
  revert n m. induction s as [| c s IH]; intros n m.
  - destruct n, m; simpl; lia.
  - destruct n as [| n]; simpl.
    + destruct m as [| m]; simpl; [lia |]. specialize (IH 0%nat m). lia.
    + apply IH.
Qed.

Lemma slice_length_le (s : string) (n : nat) :
  (String.length (slice s 0 (Z.of_nat n)) <= n)%nat.
Proof.
  unfold slice. etransitivity; [apply substring_length_le |].
  unfold clamp_index. change (0 <? 0)%Z with false. cbv iota.
  destruct (Z.of_nat n <? 0)%Z eqn:E; lia.
Qed.

Lemma fetch_fails_throws (env : gmap string string) (up : Upstream) (q : option Query)
    (d : Part001.Dataset) :
  fetch_fails up (url (Part001.request env q d)) <->
  exists e, Part001.fetchJSON env up q d = Throw e.
Proof.
  unfold Part001.fetchJSON. split.
  - intros [e H | r H Hok | r e H Hok Hp]; rewrite H.
    + eexists; reflexivity.
    + rewrite Hok. simpl. eexists; reflexivity.
    + rewrite Hok, Hp. simpl. eexists; reflexivity.
  - intros [e H].
    destruct (answer up (url (Part001.request env q d))) as [e' | r] eqn:E.
    + eapply network_error; exact E.
    + destruct (ok r) eqn:Hok.
      * simpl in H. destruct (parsed r) as [rows | e'] eqn:Hp; [discriminate |].
        eapply bad_body; eassumption.
      * eapply bad_status; eassumption.
Qed.

(** The statuses of the partial-tolerant handler. *)
Lemma part001_statuses (env : gmap string string) (up : Upstream) (q : option Query)
    (code : N) (body : Json) :
  outcome (Part001.api_rdw env up q) = Responded code body ->
  code = 200 \/ code = 400 \/ code = 404.
Proof.
  unfold Part001.api_rdw. destruct (negb _); simpl.
  - intros [= <- _]. right; left; reflexivity.
  - destruct (match Part001.fetchJSON env up q Part001.basis with
              | Ok arr => head arr
              | Throw _ => None
              end); simpl.
    + destruct (Part001.summary _ _ _ _); [| discriminate].
      intros [= <- _]. left; reflexivity.
    + intros [= <- _]. right; right; reflexivity.
Qed.

(** C10.  In the partial-tolerant variant a basis fetch that fails (it is
    rejected, answered with a status outside 2xx, or answered with a body
    that is not JSON) gives 404 with the body of a vehicle that is not
    found: the run is the run against an upstream without the vehicle.  And
    whatever the upstream does, the handler answers with 200, 400 or 404
    only, never with a 5xx. *)
Theorem basis_failure_is_not_found
    (env : gmap string string) (up : Upstream) (q : option Query) :
  test_plate (Part001.normalize q) = true ->
  fetch_fails up (url (Part001.request env q Part001.basis)) ->
  outcome (Part001.api_rdw env up q)
    = Responded 404 (error_body "Geen voertuig gevonden voor kenteken.")
  /\ Part001.api_rdw env up q = Part001.api_rdw env without_vehicle q
  /\ (forall code body,
        outcome (Part001.api_rdw env up q) = Responded code body -> (code < 500)%N)
  /\ (forall up' code body,
        outcome (Part001.api_rdw env up' q) = Responded code body ->
        code = 200 \/ code = 400 \/ code = 404).
Proof.
  intros Hplate Hfail.
  apply fetch_fails_throws in Hfail. destruct Hfail as [e He].
  assert (Hrun : Part001.api_rdw env up q
                 = {| outcome := Responded 404 Part001.not_found;
                      requests := [Part001.request env q Part001.basis] |}).
  { unfold Part001.api_rdw. fold (Part001.plate q). unfold Part001.plate.
    rewrite Hplate, He. reflexivity. }
  split; [rewrite Hrun; reflexivity |].
  split.
  - rewrite Hrun. unfold Part001.api_rdw. unfold Part001.plate.
    rewrite Hplate. reflexivity.
  - split.
    + intros code body H. rewrite Hrun in H. injection H as <- _. reflexivity.
    + intros up'. apply part001_statuses.
Qed.

(** C10 at an upstream that answers every fetch with 503. *)
Lemma basis_failure_witness :
  outcome (Part001.api_rdw ∅ Sample.down (Some (QString "ab-123-c")))
  = Responded 404 (error_body "Geen voertuig gevonden voor kenteken.").
Proof.
  refine (proj1 (basis_failure_is_not_found ∅ Sample.down (Some (QString "ab-123-c")) _ _)).
  - vm_compute; reflexivity.
  - eapply bad_status; vm_compute; reflexivity.
Defined.

Lemma secondary_settle (env : gmap string string) (up : Upstream) (q : option Query) :
  Permutation (Part001.settling env up q) Part001.secondary.
Proof. apply stable_sort_perm. Qed.

Lemma perm_flat_map {A B : Type} (f : A -> list B) (l l' : list A) :
  Permutation l l' -> Permutation (flat_map f l) (flat_map f l').
Proof.
  induction 1 as [| x l l' _ IH | x y l | l l' l'' _ IH1 _ IH2]; simpl.
  - apply perm_nil.
  - apply Permutation_app_head, IH.
  - rewrite !app_assoc. apply Permutation_app_tail, Permutation_app_comm.
  - apply Permutation_trans with (flat_map f l'); assumption.
Qed.

(** The year of construction can be taken from a date that is a string or
    is falsy, and from no other. *)
Lemma year_of_date (b : Row) :
  (text_or_falsy (get b "datum_eerste_toelating") = true ->
   exists year, Part001.bouwjaar b = Ok year)
  /\ (text_or_falsy (get b "datum_eerste_toelating") = false ->
      Part001.bouwjaar b
      = Throw (TypeError "basis.datum_eerste_toelating.slice is not a function")).
Proof.
  unfold Part001.bouwjaar, text_or_falsy.
  destruct (get b "datum_eerste_toelating") as [| | [|] | n | s]; simpl.
  1-4: split; intros H; first [discriminate H | reflexivity | eexists; reflexivity].
  - destruct (num_truthy n); split; intros H;
      first [discriminate H | reflexivity | eexists; reflexivity].
  - destruct (nonempty s); split; intros H;
      first [discriminate H | eexists; reflexivity].
Qed.

Lemma mentions_own_label (x : string) : mentions "assen" ("assen: " ++ x) = true.
Proof. reflexivity. Qed.

Lemma mentions_after_label (x : string) :
  mentions "assen" ("kleuren: " ++ x) = mentions "assen" x.
Proof. reflexivity. Qed.

(** C1, as amended.  In the partial-tolerant variant, for a valid plate,
    when the basis fetch delivers a first record whose date of first
    admission is a string or is falsy, the fuel fetch delivers its rows and
    the axle fetch throws, the response is 200, details.assen is the empty
    list, and details.warnings has exactly one entry with the label
    "assen: ": the label followed by at most 140 code units of the error
    message, an entry that mentions assen.  The only other entry there can
    be is the one of a failed colour fetch: when that fetch delivers its
    rows the warnings are the one entry, and when it fails they are the two
    entries, of which the labelled one is the only one to mention assen
    exactly when the reported part of the colour message does not. *)
Theorem assen_failure_is_a_warning
    (env : gmap string string) (up : Upstream) (q : option Query)
    (b : Row) (rest brandstof : RecordSet) (e : Exn) :
  test_plate (Part001.normalize q) = true ->
  Part001.fetchJSON env up q Part001.basis = Ok (b :: rest) ->
  Part001.fetchJSON env up q Part001.brand = Ok brandstof ->
  Part001.fetchJSON env up q Part001.assen = Throw e ->
  text_or_falsy (get b "datum_eerste_toelating") = true ->
  exists (body : Json) (warnings : list string),
    outcome (Part001.api_rdw env up q) = Responded 200 body
    /\ path ["details"; "assen"] body = Some (JArr [])
    /\ path ["details"; "warnings"] body = Some (jstrings warnings)
    /\ List.filter (String.prefix "assen: ") warnings
       = [("assen: " ++ slice (message e) 0 140)%string]
    /\ mentions "assen" ("assen: " ++ slice (message e) 0 140) = true
    /\ (String.length (slice (message e) 0 140) <= 140)%nat
    /\ (forall kleuren, Part001.fetchJSON env up q Part001.kleuren = Ok kleuren ->
          warnings = [("assen: " ++ slice (message e) 0 140)%string])
    /\ (forall e', Part001.fetchJSON env up q Part001.kleuren = Throw e' ->
          Permutation warnings
            [ ("kleuren: " ++ slice (message e') 0 140)%string;
              ("assen: " ++ slice (message e) 0 140)%string ]
          /\ (List.filter (mentions "assen") warnings
                = [("assen: " ++ slice (message e) 0 140)%string]
              <-> mentions "assen" (slice (message e') 0 140) = false)).
Proof.
  intros Hplate Hbasis Hbrand Hassen Hdate.
  destruct (proj1 (year_of_date b) Hdate) as [year Hyear].
  set (warnings := Part001.pushes env up q Part001.basis
                   ++ flat_map (Part001.pushes env up q) (Part001.settling env up q)).
  assert (Hpush : forall d, Part001.pushes env up q d
            = match d with
              | Part001.assen => [Part001.warning Part001.assen e]
              | Part001.kleuren => Part001.pushes env up q Part001.kleuren
              | _ => []
              end).
  { intros []; unfold Part001.pushes;
      rewrite ?Hbasis, ?Hbrand, ?Hassen; reflexivity. }
  assert (Hperm : Permutation warnings
                    (Part001.pushes env up q Part001.kleuren
                     ++ [("assen: " ++ slice (message e) 0 140)%string])).
  { unfold warnings. rewrite (Hpush Part001.basis). simpl app.
    eapply Permutation_trans; [apply perm_flat_map, secondary_settle |].
    unfold Part001.secondary. simpl flat_map.
    rewrite (Hpush Part001.brand), (Hpush Part001.assen). simpl app.
    apply Permutation_refl. }
  assert (Hkleuren : Part001.pushes env up q Part001.kleuren = []
                     \/ exists e', Part001.pushes env up q Part001.kleuren
                                   = [("kleuren: " ++ slice (message e') 0 140)%string]).
  { unfold Part001.pushes. destruct (Part001.fetchJSON env up q Part001.kleuren) as [? | e'];
      [left; reflexivity | right; exists e'; reflexivity]. }
  exists (JObj [ ("summary",
                  jobj (match Part001.summary (Part001.plate q) b
                                (Part001.rows_of env up q Part001.kleuren)
                                (Part001.fuels (Part001.rows_of env up q Part001.brand)) with
                        | Ok s => s | Throw _ => [] end));
                 ("details",
                  Part001.details b (Part001.fuels (Part001.rows_of env up q Part001.brand))
                    (Part001.rows_of env up q Part001.kleuren)
                    (Part001.rows_of env up q Part001.assen) warnings) ]), warnings.
  split; [| split; [| split; [| split; [| split; [| split; [| split]]]]]].
  - unfold Part001.api_rdw. fold (Part001.plate q). unfold Part001.plate at 1.
    rewrite Hplate, Hbasis. simpl.
    unfold Part001.summary. rewrite Hyear. reflexivity.
  - change (Some (JArr (map (fun a => jobj (Part001.as_entry a))
                             (Part001.rows_of env up q Part001.assen))) = Some (JArr [])).
    unfold Part001.rows_of. rewrite Hassen. reflexivity.
  - reflexivity.
  - unfold warnings. rewrite (Hpush Part001.basis). simpl app.
    apply Permutation_length_1_inv. apply Permutation_sym.
    eapply Permutation_trans;
      [apply perm_filter_flat_map, secondary_settle |].
    unfold Part001.secondary. simpl flat_map.
    rewrite (Hpush Part001.brand), (Hpush Part001.assen). simpl app.
    unfold Part001.warning.
    destruct Hkleuren as [-> | [e' ->]]; simpl; rewrite prefix_empty;
      apply Permutation_refl.
  - apply mentions_own_label.
  - apply (slice_length_le (message e) 140).
  - intros kleuren Hk. unfold Part001.pushes in Hperm. rewrite Hk in Hperm.
    apply Permutation_length_1_inv, Permutation_sym. exact Hperm.
  - intros e' Hk. unfold Part001.pushes in Hperm. rewrite Hk in Hperm.
    change (Permutation warnings
              [ ("kleuren: " ++ slice (message e') 0 140)%string;
                ("assen: " ++ slice (message e) 0 140)%string ]) in Hperm.
    split; [exact Hperm |].
    apply Permutation_sym, Permutation_length_2_inv in Hperm.
    destruct Hperm as [-> | ->]; cbn [List.filter];
      rewrite mentions_after_label, mentions_own_label;
      destruct (mentions "assen" (slice (message e') 0 140));
      split; intros H; first [reflexivity | discriminate H].
Qed.

(** C1 at an upstream that knows the vehicle and its fuels and answers the
    axle query with 500. *)
Lemma assen_failure_witness :
  exists (body : Json) (warnings : list string),
    outcome (Part001.api_rdw ∅ Sample.axles_down (Some (QString "AB-123-C")))
      = Responded 200 body
    /\ path ["details"; "assen"] body = Some (JArr [])
    /\ path ["details"; "warnings"] body = Some (jstrings warnings)
    /\ List.filter (String.prefix "assen: ") warnings = ["assen: assen kapot"].
Proof.
  destruct (assen_failure_is_a_warning ∅ Sample.axles_down (Some (QString "AB-123-C"))
              Sample.toyota [] Sample.fuel_rows (Error "assen kapot")
              ltac:(vm_compute; reflexivity) ltac:(vm_compute; reflexivity)
              ltac:(vm_compute; reflexivity) ltac:(vm_compute; reflexivity)
              ltac:(vm_compute; reflexivity))
    as [body [warnings [H1 [H2 [H3 [H4 _]]]]]].
  exists body, warnings. repeat split; assumption.
Defined.

(** C1 as stated fails.  With a basis record that gives its date of first
    admission as a number, the basis and the fuel fetch succeed and the axle
    fetch throws, but shaping the summary raises a TypeError outside any
    [try]: the handler sends no response.  And when the colour fetch fails
    too, with a message that names the axles, two warnings mention assen. *)
Lemma assen_failure_without_response :
  test_plate (Part001.normalize (Some (QString "AB-123-C"))) = true
  /\ Part001.fetchJSON ∅ Sample.axles_down_dated_by_number (Some (QString "AB-123-C"))
       Part001.basis = Ok [Sample.dated_by_number]
  /\ Part001.fetchJSON ∅ Sample.axles_down_dated_by_number (Some (QString "AB-123-C"))
       Part001.brand = Ok Sample.fuel_rows
  /\ Part001.fetchJSON ∅ Sample.axles_down_dated_by_number (Some (QString "AB-123-C"))
       Part001.assen = Throw (Error "assen kapot")
  /\ outcome (Part001.api_rdw ∅ Sample.axles_down_dated_by_number
                (Some (QString "AB-123-C")))
     = Unhandled (TypeError "basis.datum_eerste_toelating.slice is not a function")
  /\ status_of (outcome (Part001.api_rdw ∅ Sample.axles_down_dated_by_number
                           (Some (QString "AB-123-C")))) = None
  /\ (exists body,
        outcome (Part001.api_rdw ∅ Sample.colours_and_axles_down
                   (Some (QString "AB-123-C"))) = Responded 200 body
        /\ path ["details"; "warnings"] body
           = Some (jstrings [ "kleuren: storing in kleuren en assen";
                              "assen: assen kapot" ]))
  /\ List.filter (mentions "assen")
       [ "kleuren: storing in kleuren en assen"; "assen: assen kapot" ]
     = [ "kleuren: storing in kleuren en assen"; "assen: assen kapot" ].
Proof.
  repeat split; try (vm_compute; reflexivity).
  eexists. split; vm_compute; reflexivity.
Qed.

(** ** The 404 *)

Lemma no_rejection {D : Type} (up : Upstream) (target : D -> string)
    (q : D -> Result RecordSet) (ds : list D) :
  (forall d, exists rows, q d = Ok rows) ->
  Server.first_rejection up target q ds = None.
Proof.
  intros H. unfold Server.first_rejection.
  generalize (stable_sort (fun x y => (settled up (target y) <? settled up (target x))%nat) ds).
  intros l. induction l as [| d l IH]; simpl; [reflexivity |].
  destruct (H d) as [rows ->]. exact IH.
Qed.

Lemma get_first (rows : RecordSet) (key : string) :
  get (match rows with row :: _ => row | [] => ∅ end) key = first_get rows key.
Proof.
  destruct rows; [| reflexivity]. unfold get. rewrite lookup_empty. reflexivity.
Qed.

(** C4, as amended.  In [server.js], when all six fetches succeed and the
    first basis record has neither a make nor a trade name (or there is no
    record), the response is 404 whatever the other datasets hold.  In the
    partial-tolerant variant the 404 is decided by the presence of a first
    basis record alone: it is given exactly when the basis fetch delivers no
    record, whatever the other datasets do.  When there is a first record,
    what decides is its date of first admission: with a date that is a
    string or is falsy the response is 200, with the make and the trade name
    of the record in the summary, null for one that the record does not
    have; with any other date the handler sends no response. *)
Theorem not_found_is_decided_by_basis
    (env : gmap string string) (up : Upstream) (q : option Query) :
  (kenteken_throws q = false ->
   nonempty (Server.normalize q) = true ->
   (forall d, exists rows, Server.q up q d = Ok rows) ->
   truthy (first_get (Server.value_of (Server.q up q Server.basis)) "merk") = false ->
   truthy (first_get (Server.value_of (Server.q up q Server.basis)) "handelsbenaming")
     = false ->
   outcome (Server.api_rdw env up q)
     = Responded 404 (error_body "Geen voertuig gevonden voor kenteken."))
  /\ (test_plate (Part001.normalize q) = true ->
      (outcome (Part001.api_rdw env up q)
         = Responded 404 (error_body "Geen voertuig gevonden voor kenteken.")
       <-> first_record (Part001.fetchJSON env up q Part001.basis) = None)
      /\ (forall b,
            first_record (Part001.fetchJSON env up q Part001.basis) = Some b ->
            (text_or_falsy (get b "datum_eerste_toelating") = true ->
             exists body,
               outcome (Part001.api_rdw env up q) = Responded 200 body
               /\ path ["summary"; "merk"] body = Some (JVal (or_null (get b "merk")))
               /\ path ["summary"; "handelsbenaming"] body
                  = Some (JVal (or_null (get b "handelsbenaming")))
               /\ (truthy (get b "merk") = false ->
                   truthy (get b "handelsbenaming") = false ->
                   path ["summary"; "merk"] body = Some (JVal VNull)
                   /\ path ["summary"; "handelsbenaming"] body = Some (JVal VNull)))
            /\ (text_or_falsy (get b "datum_eerste_toelating") = false ->
                status_of (outcome (Part001.api_rdw env up q)) = None))).
Proof.
  split.
  - intros _ Hplate Hall Hmerk Hnaam.
    unfold Server.api_rdw. fold (Server.plate q). unfold Server.plate at 1.
    rewrite Hplate. simpl.
    rewrite (no_rejection up _ _ _ Hall).
    unfold Server.respond. rewrite !get_first, Hmerk, Hnaam. reflexivity.
  - intros Hplate.
    unfold Part001.api_rdw, Part001.plate. rewrite Hplate. simpl.
    destruct (Part001.fetchJSON env up q Part001.basis) as [[| b rest] | e]; simpl.
    + split; [split; reflexivity | intros b H; discriminate H].
    + split.
      * split; [| discriminate].
        destruct (Part001.summary _ _ _ _); discriminate.
      * intros b' [= <-]. unfold Part001.summary. split; intros Hdate.
        -- destruct (proj1 (year_of_date b) Hdate) as [year ->].
           eexists. split; [reflexivity |].
           split; [reflexivity |]. split; [reflexivity |].
           intros Hmerk Hnaam. unfold or_null, or. rewrite Hmerk, Hnaam.
           split; reflexivity.
        -- rewrite (proj2 (year_of_date b) Hdate). reflexivity.
    + split; [split; reflexivity | intros b H; discriminate H].
Qed.

(** C4 in [server.js], at a basis record that has only its plate. *)
Lemma not_found_witness :
  outcome (Server.api_rdw ∅ Sample.nameless (Some (QString "AB-123-C")))
  = Responded 404 (error_body "Geen voertuig gevonden voor kenteken.").
Proof.
  refine (proj1 (not_found_is_decided_by_basis ∅ Sample.nameless
                   (Some (QString "AB-123-C"))) _ _ _ _ _).
  - vm_compute; reflexivity.
  - vm_compute; reflexivity.
  - intros d. destruct d; eexists; vm_compute; reflexivity.
  - vm_compute; reflexivity.
  - vm_compute; reflexivity.
Defined.

(** C4 as stated fails: for a first basis record that has neither a make nor
    a trade name the partial-tolerant variant answers 200, where [server.js]
    answers 404; and when that record gives its date as a number, it sends
    no response at all. *)
Lemma nameless_record_is_found :
  first_get (Part001.rows_of ∅ Sample.nameless (Some (QString "AB-123-C")) Part001.basis)
    "merk" = VUndefined
  /\ first_get (Part001.rows_of ∅ Sample.nameless (Some (QString "AB-123-C")) Part001.basis)
       "handelsbenaming" = VUndefined
  /\ status_of (outcome (Part001.api_rdw ∅ Sample.nameless (Some (QString "AB-123-C"))))
     = Some 200
  /\ status_of (outcome (Server.api_rdw ∅ Sample.nameless (Some (QString "AB-123-C"))))
     = Some 404
  /\ outcome (Part001.api_rdw ∅ Sample.nameless_dated_by_number (Some (QString "AB-123-C")))
     = Unhandled (TypeError "basis.datum_eerste_toelating.slice is not a function")
  /\ status_of (outcome (Server.api_rdw ∅ Sample.nameless_dated_by_number
                           (Some (QString "AB-123-C"))))
     = Some 404.
Proof. repeat split; vm_compute; reflexivity. Qed.

(** ** The normalised plate *)





Lemma all_chars_impl (p p' : ascii -> bool) (s : string) :
  (forall c, p c = true -> p' c = true) -> all_chars p s = true -> all_chars p' s = true.
Proof.
  intros Hp. induction s as [| c r IH]; simpl; [reflexivity |].
  intros H. apply andb_prop in H. destruct H as [Hc H].
  rewrite (Hp c Hc), (IH H). reflexivity.
Qed.


Lemma all_chars_app (p : ascii -> bool) (s t : string) :
  all_chars p (s ++ t) = all_chars p s && all_chars p t.
Proof.
  induction s as [| c r IH]; simpl; [reflexivity |].
  rewrite IH. apply andb_assoc.
Qed.

Lemma removeHyphens_app (s t : string) :
  removeHyphens (s ++ t) = (removeHyphens s ++ removeHyphens t)%string.
Proof.
  induction s as [| c r IH]; simpl; [reflexivity |].
  destruct (code c =? 45); simpl; rewrite IH; reflexivity.
Qed.



Lemma upper_char_hyphen (c : ascii) :
  removeHyphens (upper_char c) = if code c =? 45 then EmptyString else upper_char c.
Proof. destruct c as [[] [] [] [] [] [] [] []]; reflexivity. Qed.

Lemma toUpperCase_removeHyphens (s : string) :
  toUpperCase (removeHyphens s) = removeHyphens (toUpperCase s).
Proof.
  induction s as [| c r IH]; simpl; [reflexivity |].
  rewrite removeHyphens_app, upper_char_hyphen.
  destruct (code c =? 45); simpl; rewrite IH; reflexivity.
Qed.



Lemma plate_char_unreserved (c : ascii) : is_plate_char c = true -> is_unreserved c = true.
Proof.
  unfold is_plate_char, is_unreserved. intros H.
  apply orb_prop in H. destruct H as [-> | ->]; simpl; rewrite ?orb_true_r; reflexivity.
Qed.

Lemma encode_plate (s : string) :
  all_chars is_plate_char s = true -> encodeURIComponent s = s.
Proof.
  induction s as [| c r IH]; simpl; [reflexivity |].
  intros H. apply andb_prop in H. destruct H as [Hc H].
  unfold escape_char. rewrite (plate_char_unreserved c Hc), (IH H). reflexivity.
Qed.




(** ** The validation of the plate *)

Lemma respond_codes (plate : string) (a b c d e f : RecordSet) (code : N) (body : Json) :
  Server.respond plate a b c d e f = Ok (code, body) -> code = 200 \/ code = 404.
Proof.
  unfold Server.respond. destruct (_ && _).
  - intros [= <- _]. right; reflexivity.
  - destruct (Server.summary _ _ _ _); [| discriminate].
    intros [= <- _]. left; reflexivity.
Qed.

Lemma server_statuses (env : gmap string string) (up : Upstream) (q : option Query) :
  nonempty (Server.normalize q) = true ->
  status_of (outcome (Server.api_rdw env up q)) = Some 200
  \/ status_of (outcome (Server.api_rdw env up q)) = Some 404
  \/ status_of (outcome (Server.api_rdw env up q)) = Some 500.
Proof.
  intros H. unfold Server.api_rdw, Server.plate. rewrite H. simpl.
  destruct (Server.first_rejection _ _ _ _); [right; right; reflexivity |].
  destruct (Server.respond _ _ _ _ _ _ _) as [[code body] | e] eqn:E;
    [| right; right; reflexivity].
  apply respond_codes in E. destruct E as [-> | ->];
    [left | right; left]; reflexivity.
Qed.

(** The validating variants answer a plate that does not match the pattern
    with 400, before any request is sent. *)
Lemma validating_variants_reject
    (env : gmap string string) (up : Upstream) (q : option Query) :
  (test_plate (Part000.normalize q) = false ->
   Part000.api_rdw env up q
   = {| outcome := Responded 400 (error_body "Ongeldig kentekenformaat"); requests := [] |})
  /\ (test_plate (Part001.normalize q) = false ->
      Part001.api_rdw env up q
      = {| outcome := Responded 400 (error_body "Ongeldig kentekenformaat"); requests := [] |}).
Proof.
  split; intros H.
  - unfold Part000.api_rdw, Part000.plate. rewrite H. reflexivity.
  - unfold Part001.api_rdw, Part001.plate. rewrite H. reflexivity.
Qed.

(** C3 on [server.js].  The plate "AB$12345678" has a character outside the
    alphanumerics and more than 8 characters, and does not match the
    pattern; [server.js], which only rejects an empty plate, sends it
    upstream in all six queries and does not answer 400. *)
Theorem server_forwards_unchecked_plate (env : gmap string string) (up : Upstream) :
  test_plate (Server.normalize (Some (QString "ab$12345678"))) = false
  /\ map url (requests (Server.api_rdw env up (Some (QString "ab$12345678"))))
     = [ "https://opendata.rdw.nl/resource/m9d7-ebf2.json?kenteken=AB$12345678";
         "https://opendata.rdw.nl/resource/8ys7-d773.json?kenteken=AB$12345678";
         "https://opendata.rdw.nl/resource/ihha-7xnj.json?kenteken=AB$12345678";
         "https://opendata.rdw.nl/resource/vezc-m2t6.json?kenteken=AB$12345678";
         "https://opendata.rdw.nl/resource/jhie-znh9.json?kenteken=AB$12345678";
         "https://opendata.rdw.nl/resource/3huj-srit.json?kenteken=AB$12345678" ]
  /\ (status_of (outcome (Server.api_rdw env up (Some (QString "ab$12345678")))) = Some 200
      \/ status_of (outcome (Server.api_rdw env up (Some (QString "ab$12345678")))) = Some 404
      \/ status_of (outcome (Server.api_rdw env up (Some (QString "ab$12345678")))) = Some 500)
  /\ Part000.api_rdw env up (Some (QString "ab$12345678"))
     = {| outcome := Responded 400 (error_body "Ongeldig kentekenformaat"); requests := [] |}.
Proof.
  split; [reflexivity |]. split; [reflexivity |]. split.
  - apply server_statuses. reflexivity.
  - apply validating_variants_reject. reflexivity.
Qed.

Lemma length_app (s t : string) :
  String.length (s ++ t) = (String.length s + String.length t)%nat.
Proof. induction s as [| c r IH]; simpl; [reflexivity | rewrite IH; reflexivity]. Qed.

(** The sharp s is upper-cased to "SS", which passes the validation. *)
Example sharp_s_passes :
  Part000.normalize (Some (QString (String "223" ""))) = "SS"
  /\ test_plate (Part000.normalize (Some (QString (String "223" "")))) = true.
Proof. split; reflexivity. Qed.

(** * Further properties of the code *)

Import Site Reading.

(** ** The script of [/env.js] *)

Lemma append_cons (c : ascii) (s t : string) :
  (String c s ++ t)%string = String c (s ++ t).
Proof. reflexivity. Qed.

Lemma append_assoc' (s t u : string) : ((s ++ t) ++ u = s ++ (t ++ u))%string.
Proof.
  induction s as [| c r IH]; [reflexivity |].
  rewrite !append_cons, IH. reflexivity.
Qed.

Lemma append_empty (s : string) : (s ++ "")%string = s.
Proof.
  induction s as [| c r IH]; [reflexivity |].
  rewrite append_cons, IH. reflexivity.
Qed.

(** Reading what [JSON.stringify] wrote for a code unit gives the code unit
    back, whatever follows. *)
Lemma read_quote_char (c : ascii) (t : string) :
  read_chars (quote_char c ++ t)
  = match read_chars t with
    | Some (u, after) => Some (String c u, after)
    | None => None
    end.
Proof. destruct c as [[] [] [] [] [] [] [] []]; reflexivity. Qed.

Lemma read_quote_chars (s t : string) :
  read_chars (quote_chars s ++ t)
  = match read_chars t with
    | Some (u, after) => Some ((s ++ u)%string, after)
    | None => None
    end.
Proof.
  induction s as [| c r IH].
  - change (quote_chars "" ++ t)%string with t.
    destruct (read_chars t) as [[u after] |]; reflexivity.
  - change (quote_chars (String c r)) with (quote_char c ++ quote_chars r)%string.
    rewrite append_assoc', read_quote_char, IH.
    destruct (read_chars t) as [[u after] |]; reflexivity.
Qed.

(** The literal that [JSON.stringify] writes for a string reads back as that
    string and ends where it was meant to end. *)
Lemma read_JSON_stringify (s rest : string) :
  read_literal (JSON_stringify s ++ rest) = Some (s, rest).
Proof.
  unfold JSON_stringify. rewrite append_cons.
  change (read_chars ((quote_chars s ++ String dquote "") ++ rest) = Some (s, rest)).
  rewrite append_assoc', read_quote_chars.
  change (Some ((s ++ "")%string, rest) = Some (s, rest)).
  rewrite append_empty. reflexivity.
Qed.

Lemma after_prefix_append (p s : string) : after_prefix p (p ++ s) = Some s.
Proof.
  induction p as [| c r IH]; [destruct s; reflexivity |].
  rewrite append_cons. simpl. rewrite Ascii.eqb_refl. exact IH.
Qed.

Lemma read_assignment_stringify (name v rest : string) :
  read_assignment name (("window." ++ name ++ "=") ++ JSON_stringify v ++ ";" ++ rest)
  = Some (v, rest).
Proof.
  unfold read_assignment. rewrite after_prefix_append, read_JSON_stringify. reflexivity.
Qed.

Lemma read_url_assignment (v rest : string) :
  read_assignment "__SUPABASE_URL__"
    ("window.__SUPABASE_URL__=" ++ JSON_stringify v ++ ";" ++ rest) = Some (v, rest).
Proof. exact (read_assignment_stringify "__SUPABASE_URL__" v rest). Qed.

Lemma read_anon_assignment (v rest : string) :
  read_assignment "__SUPABASE_ANON_KEY__"
    ("window.__SUPABASE_ANON_KEY__=" ++ JSON_stringify v ++ ";" ++ rest) = Some (v, rest).
Proof. exact (read_assignment_stringify "__SUPABASE_ANON_KEY__" v rest). Qed.

(** X1.  Whatever the two configured values contain (quotes, backslashes,
    line breaks, control characters), the script of [/env.js] is two
    well-formed assignments from which a browser reads back exactly the
    configured SUPABASE_URL and SUPABASE_ANON_KEY (the empty string for one
    that is not set): a value cannot end its literal early and add code of
    its own. *)
Theorem env_js_reads_back (env : gmap string string) :
  read_env_js (page_body (server_env_js env))
  = Some (env_or_empty env "SUPABASE_URL", env_or_empty env "SUPABASE_ANON_KEY")
  /\ read_env_js (page_body (part001_env_js env))
     = Some (env_or_empty env "SUPABASE_URL", env_or_empty env "SUPABASE_ANON_KEY").
Proof.
  set (U := env_or_empty env "SUPABASE_URL").
  set (A := env_or_empty env "SUPABASE_ANON_KEY").
  set (second := ("window.__SUPABASE_ANON_KEY__=" ++ JSON_stringify A ++ ";" ++ "")%string).
  split.
  - change (read_env_js ("window.__SUPABASE_URL__=" ++ JSON_stringify U ++ ";" ++ second)
            = Some (U, A)).
    unfold read_env_js. rewrite read_url_assignment.
    change (trimStart second) with second. unfold second.
    rewrite read_anon_assignment. reflexivity.
  - change (read_env_js ("window.__SUPABASE_URL__=" ++ JSON_stringify U ++ ";"
                         ++ (line_break ++ second)) = Some (U, A)).
    unfold read_env_js. rewrite read_url_assignment.
    change (trimStart (line_break ++ second)) with second. unfold second.
    rewrite read_anon_assignment. reflexivity.
Qed.

(** X2.  The page of [/env.js] depends on SUPABASE_URL and SUPABASE_ANON_KEY
    only: setting or changing any other variable of the environment (the
    RDW token, a service-role key) changes nothing of it. *)
Theorem env_js_exposes_two_values
    (env : gmap string string) (other secret : string) :
  other <> "SUPABASE_URL" -> other <> "SUPABASE_ANON_KEY" ->
  server_env_js (<[other := secret]> env) = server_env_js env
  /\ part001_env_js (<[other := secret]> env) = part001_env_js env.
Proof.
  intros Hurl Hanon. unfold server_env_js, part001_env_js, env_or_empty.
  rewrite !lookup_insert_ne by assumption. split; reflexivity.
Qed.

Lemma env_js_exposes_two_values_witness :
  server_env_js (<["SUPABASE_SERVICE_ROLE_KEY" := "secret"]> ∅) = server_env_js ∅
  /\ part001_env_js (<["SUPABASE_SERVICE_ROLE_KEY" := "secret"]> ∅) = part001_env_js ∅.
Proof.
  apply (env_js_exposes_two_values ∅ "SUPABASE_SERVICE_ROLE_KEY" "secret");
    intros H; discriminate H.
Defined.

(** ** The health route *)

(** X3.  The health report tells whether SUPABASE_URL and RDW_APP_TOKEN are
    configured and nothing else: two environments in which the same of the
    two are set (and not empty) get the same report, whatever the values. *)
Theorem health_reports_presence_only (env env' : gmap string string) :
  configured env "SUPABASE_URL" = configured env' "SUPABASE_URL" ->
  configured env "RDW_APP_TOKEN" = configured env' "RDW_APP_TOKEN" ->
  health env = health env'.
Proof.
  intros H1 H2. unfold health. rewrite H1, H2. reflexivity.
Qed.

Lemma health_reports_presence_only_witness :
  health (<["RDW_APP_TOKEN" := "token-one"]> ∅)
  = health (<["RDW_APP_TOKEN" := "another token"]> (<["PORT" := "8080"]> ∅)).
Proof.
  apply health_reports_presence_only; vm_compute; reflexivity.
Defined.

(** ** The origins let in *)

Lemma allowed_origin_is_local_or_https (allowed : gset string) (origin : string) :
  (origin ∈ allowed ->
   String.prefix "https://" origin = true
   \/ String.prefix "http://localhost:" origin = true
   \/ String.prefix "http://127.0.0.1:" origin = true) ->
  origin_check allowed (Some origin) = true ->
  origin = ""
  \/ String.prefix "https://" origin = true
  \/ String.prefix "http://localhost:" origin = true
  \/ String.prefix "http://127.0.0.1:" origin = true.
Proof.
  intros Hset. unfold origin_check. destruct origin as [| c r]; [left; reflexivity |].
  simpl. intros H. apply bool_decide_eq_true in H. right. apply Hset, H.
Qed.

(** X4.  A request without an Origin header (or with an empty one) is let
    in.  An origin that is let in by [part_000] or by the partial-tolerant
    variant is an https origin or a port of localhost or 127.0.0.1: no
    plain-http origin of another host is ever let in. *)
Theorem cors_lets_in_https_and_loopback (origin : string) :
  origin_check part000_allowed None = true
  /\ origin_check part001_allowed None = true
  /\ origin_check part000_allowed (Some "") = true
  /\ origin_check part001_allowed (Some "") = true
  /\ (origin_check part000_allowed (Some origin) = true
      \/ origin_check part001_allowed (Some origin) = true ->
      origin = ""
      \/ String.prefix "https://" origin = true
      \/ String.prefix "http://localhost:" origin = true
      \/ String.prefix "http://127.0.0.1:" origin = true).
Proof.
  do 4 (split; [reflexivity |]).
  intros [H | H]; revert H; apply allowed_origin_is_local_or_https;
    unfold part000_allowed, part001_allowed;
    rewrite !elem_of_union, !elem_of_singleton;
    intros H; repeat (destruct H as [H | H]); subst origin;
      first [ left; reflexivity | right; left; reflexivity | right; right; reflexivity ].
Qed.

Lemma cors_lets_in_https_and_loopback_witness :
  "http://localhost:5500" = ""
  \/ String.prefix "https://" "http://localhost:5500" = true
  \/ String.prefix "http://localhost:" "http://localhost:5500" = true
  \/ String.prefix "http://127.0.0.1:" "http://localhost:5500" = true.
Proof.
  apply (proj2 (proj2 (proj2 (proj2 (cors_lets_in_https_and_loopback "http://localhost:5500"))))).
  left. vm_compute. reflexivity.
Defined.

(** ** Rounding *)

Lemma nearest_even_integer (n : Z) : nearest_even n 1 = n.
Proof.
  unfold nearest_even. rewrite Z.div_1_r, Z.mod_1_r. reflexivity.
Qed.

Lemma shift2_back (x : Q) (k : Z) : (shift2 (shift2 x k) (- k) == x)%Q.
Proof.
  unfold shift2.
  destruct (Z.leb_spec 0 k) as [Hk | Hk]; destruct (Z.leb_spec 0 (- k)) as [Hk' | Hk'].
  - assert (k = 0%Z) as -> by lia. simpl. unfold Qeq. simpl. lia.
  - rewrite Z.opp_involutive.
    assert (H : ~ (inject_Z (2 ^ k) == 0)%Q).
    { unfold Qeq. simpl. pose proof (Z.pow_pos_nonneg 2 k). lia. }
    field. exact H.
  - assert (H : ~ (inject_Z (2 ^ (- k)) == 0)%Q).
    { unfold Qeq. simpl. pose proof (Z.pow_pos_nonneg 2 (- k)). lia. }
    field. exact H.
  - lia.
Qed.

Lemma Qred_integer (z : Z) : Qred (inject_Z z) = inject_Z z.
Proof.
  unfold Qred, inject_Z.
  pose proof (Z.ggcd_gcd z 1) as Hg.
  pose proof (Z.ggcd_correct_divisors z 1) as Hd.
  destruct (Z.ggcd z 1) as [g [aa bb]]. simpl in Hg. rewrite Z.gcd_1_r in Hg. subst g.
  destruct Hd as [Ha Hb]. rewrite !Z.mul_1_l in *. subst aa bb. reflexivity.
Qed.

(** An integer below 2^53 is a binary64 value: rounding leaves it as it
    is. *)
Lemma binary64_integer (z : Z) :
  (0 <= z < 2 ^ 53)%Z -> binary64 (inject_Z z) = Fin (inject_Z z).
Proof.
  intros Hz. destruct (Z.eq_dec z 0%Z) as [-> | Hnz]; [reflexivity |].
  assert (Hpos : (0 < z)%Z) by lia.
  unfold binary64.
  assert (H0 : Qeq_bool (inject_Z z) 0 = false).
  { destruct (Qeq_bool (inject_Z z) 0) eqn:E; [| reflexivity].
    apply Qeq_bool_eq in E. unfold Qeq in E. simpl in E. lia. }
  rewrite H0.
  assert (Habs : Qabs (inject_Z z) = inject_Z z).
  { unfold Qabs, inject_Z. rewrite Z.abs_eq by lia. reflexivity. }
  rewrite Habs.
  assert (Hlog : ilog2 (inject_Z z) = Z.log2 z).
  { unfold ilog2. change (Qnum (inject_Z z)) with z.
    change (Z.log2 (Z.pos (Qden (inject_Z z)))) with 0%Z.
    rewrite Z.sub_0_r.
    assert (H : Qle_bool (shift2 1 (Z.log2 z)) (inject_Z z) = true).
    { apply Qle_bool_iff. unfold shift2.
      pose proof (Z.log2_nonneg z) as Hn. apply Z.leb_le in Hn. rewrite Hn.
      unfold Qle. simpl. pose proof (Z.log2_spec z Hpos) as [Hl _].
      destruct (2 ^ Z.log2 z)%Z; lia. }
    rewrite H. reflexivity. }
  rewrite Hlog.
  pose proof (Z.log2_nonneg z) as Hl0.
  assert (Hl : (Z.log2 z < 53)%Z) by (apply Z.log2_lt_pow2; lia).
  rewrite Z.max_l by lia.
  set (k := (- (Z.log2 z - 52))%Z).
  assert (Hk : (0 <= k)%Z) by (unfold k; lia).
  assert (Hs : shift2 (inject_Z z) k = inject_Z (z * 2 ^ k)).
  { unfold shift2. apply Z.leb_le in Hk. rewrite Hk. reflexivity. }
  rewrite Hs. cbn [Qnum Qden inject_Z]. rewrite nearest_even_integer.
  change (z * 2 ^ k # 1) with (inject_Z (z * 2 ^ k)). rewrite <- Hs.
  replace (Z.log2 z - 52)%Z with (- k)%Z by (unfold k; lia).
  pose proof (shift2_back (inject_Z z) k) as Hr.
  assert (Hle : Qle_bool 0 (inject_Z z) = true).
  { apply Qle_bool_iff. unfold Qle. simpl. lia. }
  rewrite Hle. cbn [negb].
  assert (Hbig : Qle_bool (inject_Z (2 ^ 1024)) (shift2 (shift2 (inject_Z z) k) (- k)) = false).
  { apply not_true_is_false. intros E.
    apply Qle_bool_iff in E. rewrite Hr in E. unfold Qle in E. cbn [Qnum Qden inject_Z] in E.
    assert (2 ^ 53 < 2 ^ 1024)%Z by (apply Z.pow_lt_mono_r; lia). lia. }
  rewrite Hbig. f_equal.
  rewrite (Qred_complete _ _ Hr). apply Qred_integer.
Qed.

(** ** Decimal numerals *)

Lemma digits_of_uint_acc (d : Decimal.uint) (acc : positive) (count : nat) :
  digits 10 (list_ascii_of_string (NilEmpty.string_of_uint d)) (N.pos acc) count
  = (N.pos (Pos.of_uint_acc d acc), (count + Decimal.nb_digits d)%nat, []).
Proof.
  revert acc count.
  induction d as [| d IH | d IH | d IH | d IH | d IH | d IH | d IH | d IH | d IH | d IH];
    intros acc count;
    [ simpl; rewrite Nat.add_0_r; reflexivity | .. ];
    cbn -[N.mul N.add Pos.mul Pos.add];
    match goal with
    | |- context [digit_value 10 ?c] =>
        let v := eval vm_compute in (digit_value 10 c) in
        change (digit_value 10 c) with v
    end;
    cbv iota beta;
    rewrite <- Nat.add_succ_comm, <- IH; f_equal; lia.
Qed.

Lemma digits_of_uint (d : Decimal.uint) (count : nat) :
  digits 10 (list_ascii_of_string (NilEmpty.string_of_uint d)) 0 count
  = (Pos.of_uint d, (count + Decimal.nb_digits d)%nat, []).
Proof.
  revert count.
  induction d as [| d IH | d IH | d IH | d IH | d IH | d IH | d IH | d IH | d IH | d IH];
    intros count;
    [ simpl; rewrite Nat.add_0_r; reflexivity | .. ];
    cbn -[N.mul N.add Pos.mul Pos.add];
    match goal with
    | |- context [digit_value 10 ?c] =>
        let v := eval vm_compute in (digit_value 10 c) in
        change (digit_value 10 c) with v
    end;
    cbv iota beta;
    rewrite <- Nat.add_succ_comm;
    first [ rewrite <- IH; reflexivity
          | rewrite <- digits_of_uint_acc; reflexivity ].
Qed.

Lemma uint_digits_only (d : Decimal.uint) :
  all_chars is_digit (NilEmpty.string_of_uint d) = true.
Proof. induction d; simpl; try reflexivity; assumption. Qed.

Lemma trim_no_space (s : string) : all_chars no_space s = true -> trim s = s.
Proof.
  intros H. unfold trim.
  assert (Hstart : trimStart s = s).
  { destruct s as [| c r]; [reflexivity |]. simpl in *.
    apply andb_prop in H. destruct H as [Hc _]. apply negb_true_iff in Hc.
    rewrite Hc. reflexivity. }
  rewrite Hstart. clear Hstart.
  induction s as [| c r IH]; [reflexivity |].
  simpl in *. apply andb_prop in H. destruct H as [Hc H].
  rewrite (IH H). apply negb_true_iff in Hc. rewrite Hc.
  destruct r; reflexivity.
Qed.

Lemma digit_no_space (c : ascii) : is_digit c = true -> no_space c = true.
Proof.
  destruct c as [[] [] [] [] [] [] [] []]; vm_compute; intros H;
    first [reflexivity | discriminate H].
Qed.

(** A numeral is no literal with a radix prefix and carries no sign. *)
Lemma digit_heads (c p : ascii) (r : list ascii) :
  is_digit c = true -> is_digit p = true ->
  non_decimal (c :: p :: r) = None /\ non_decimal [c] = None
  /\ (code c =? 45) = false /\ (code c =? 43) = false /\ (code c =? 73) = false.
Proof.
  destruct c as [[] [] [] [] [] [] [] []]; try (intros H; discriminate H); intros _;
    destruct p as [[] [] [] [] [] [] [] []]; try (intros H; discriminate H); intros _;
    repeat split; reflexivity.
Qed.

Lemma digit_not_I (c : ascii) : is_digit c = true -> Ascii.eqb c "I" = false.
Proof.
  destruct c as [[] [] [] [] [] [] [] []]; vm_compute; intros H;
    first [reflexivity | discriminate H].
Qed.

Lemma numeral_nonempty (d : Decimal.uint) (c : ascii) (r : string) :
  NilEmpty.string_of_uint d = String c r -> exists k, Decimal.nb_digits d = S k.
Proof. destruct d; simpl; intros H; first [discriminate H | eexists; reflexivity]. Qed.

(** [Number] reads a decimal numeral as the binary64 value nearest to the
    number it writes. *)
Lemma Number_of_any_numeral (n : N) :
  StringToNumber (of_N n) = binary64 (inject_Z (Z.of_N n)).
Proof.
  unfold StringToNumber, of_N.
  pose proof (uint_digits_only (N.to_uint n)) as Hdigits.
  pose proof (digits_of_uint (N.to_uint n) 0) as Hvalue.
  change (Pos.of_uint (N.to_uint n)) with (N.of_uint (N.to_uint n)) in Hvalue.
  rewrite DecimalN.Unsigned.of_to in Hvalue.
  rewrite trim_no_space by (apply (all_chars_impl _ _ _ digit_no_space), Hdigits).
  destruct (NilEmpty.string_of_uint (N.to_uint n)) as [| c s] eqn:Es.
  - simpl in Hvalue. injection Hvalue as <- _. reflexivity.
  - destruct (numeral_nonempty _ _ _ Es) as [k Hk]. rewrite Hk in Hvalue.
    simpl in Hdigits. apply andb_prop in Hdigits. destruct Hdigits as [Hc Hs].
    assert (Hhead : non_decimal (list_ascii_of_string (String c s)) = None
                    /\ (code c =? 45) = false /\ (code c =? 43) = false).
    { destruct s as [| p r].
      - destruct (digit_heads c c [] Hc Hc) as [_ [H1 [H2 [H3 _]]]]. auto.
      - simpl in Hs. apply andb_prop in Hs. destruct Hs as [Hp _].
        destruct (digit_heads c p (list_ascii_of_string r) Hc Hp) as [H1 [_ [H2 [H3 _]]]].
        auto. }
    destruct Hhead as [Hnd [Hminus Hplus]].
    change (list_ascii_of_string (String c s)) with (c :: list_ascii_of_string s) in *.
    cbv iota. rewrite Hnd.
    unfold signed_decimal. rewrite Hminus, Hplus.
    unfold unsigned_decimal.
    change (string_of_list_ascii (c :: list_ascii_of_string s))
      with (String c (string_of_list_ascii (list_ascii_of_string s))).
    change (String.eqb (String c (string_of_list_ascii (list_ascii_of_string s))) "Infinity")
      with (Ascii.eqb c "I"
            && String.eqb (string_of_list_ascii (list_ascii_of_string s)) "nfinity").
    rewrite (digit_not_I c Hc). simpl andb. cbv iota.
    rewrite Hvalue. cbv iota beta. cbn [exponent_part].
    unfold scale10. change (0 - Z.of_nat 0)%Z with 0%Z. cbn [Z.leb Z.compare].
    rewrite Z.pow_0_r, Z.mul_1_r. reflexivity.
Qed.

(** The largest integer up to which every integer is a binary64 value,
    [Number.MAX_SAFE_INTEGER] = 2^53 - 1: up to it, [Number] reads a decimal
    numeral as the number it writes. *)
Lemma Number_of_numeral (n : N) :
  n <= 9007199254740991 -> StringToNumber (of_N n) = Fin (inject_Z (Z.of_N n)).
Proof.
  intros Hn. rewrite Number_of_any_numeral. apply binary64_integer.
  change (2 ^ 53)%Z with 9007199254740992%Z. lia.
Qed.

Lemma numeral_truthy (n : N) : nonempty (of_N n) = true.
Proof.
  unfold of_N. destruct n as [| p]; [reflexivity |].
  simpl. pose proof (DecimalPos.Unsigned.to_uint_nonnil p) as H.
  destruct (Pos.to_uint p); first [contradiction H; reflexivity | reflexivity].
Qed.

Lemma coerce_numeral (n : N) :
  n <= 9007199254740991 ->
  coerce (VString (of_N n)) = VNumber (Fin (inject_Z (Z.of_N n))).
Proof.
  intros Hn. unfold coerce. cbn [truthy Number].
  rewrite numeral_truthy, Number_of_numeral by exact Hn. reflexivity.
Qed.

(** X5.  A quantity that the upstream row writes as a decimal numeral of at
    most 2^53 - 1 (the largest integer up to which binary64 holds every
    integer) comes out as the number the numeral writes (0 included: the
    string "0" is the number 0, not null); shown for the sequence number of a
    fuel entry in both variants and for the seats and doors of the summary.
    A larger numeral is rounded: 2^53 + 1 comes out as 2^53. *)
Theorem numeral_quantities (b : Row) (n : N) (plate : string) (kleuren fuels : list Obj)
    (s : Obj) :
  Server.summary plate b kleuren fuels = Ok s ->
  n <= 9007199254740991 ->
  (get b "brandstof_volgnummer" = VString (of_N n) ->
   prop (Server.fuel_entry b) "volgnummer" = VNumber (Fin (inject_Z (Z.of_N n)))
   /\ prop (Part001.fuel_entry b) "brandstof_volgnummer"
      = VNumber (Fin (inject_Z (Z.of_N n))))
  /\ (get b "aantal_zitplaatsen" = VString (of_N n) ->
      prop s "zitplaatsen" = VNumber (Fin (inject_Z (Z.of_N n))))
  /\ (get b "aantal_deuren" = VString (of_N n) ->
      prop s "deuren" = VNumber (Fin (inject_Z (Z.of_N n))))
  /\ coerce (VString (of_N 9007199254740993)) = VNumber (Fin 9007199254740992).
Proof.
  intros Hs Hn. unfold Server.summary in Hs.
  destruct (Server.bouwjaar b); [| discriminate]. injection Hs as <-.
  split; [| split; [| split]].
  - intros H.
    change (coerce (get b "brandstof_volgnummer") = VNumber (Fin (inject_Z (Z.of_N n)))
            /\ coerce (get b "brandstof_volgnummer") = VNumber (Fin (inject_Z (Z.of_N n)))).
    rewrite H, (coerce_numeral n Hn). split; reflexivity.
  - intros H.
    change (coerce (get b "aantal_zitplaatsen") = VNumber (Fin (inject_Z (Z.of_N n)))).
    rewrite H. apply coerce_numeral, Hn.
  - intros H.
    change (coerce (get b "aantal_deuren") = VNumber (Fin (inject_Z (Z.of_N n)))).
    rewrite H. apply coerce_numeral, Hn.
  - vm_compute. reflexivity.
Qed.

Lemma numeral_quantities_witness :
  prop (Server.fuel_entry (Sample.row [("brandstof_volgnummer", VString "12")])) "volgnummer"
  = VNumber (Fin 12).
Proof.
  refine (proj1 (proj1 (numeral_quantities
            (Sample.row [("brandstof_volgnummer", VString "12")]) 12 "AB123C" [] [] _ _ _) _)).
  - vm_compute. reflexivity.
  - vm_compute. intros H. discriminate H.
  - vm_compute. reflexivity.
Defined.

(** X6.  The port is 3001 when PORT is not set or empty, and the number that
    PORT writes when it is a decimal numeral of at most 2^53 - 1 (every port
    number is); a larger numeral is rounded to a binary64 value. *)
Theorem port_default_and_numeral (env : gmap string string) (n : N) :
  (env !! "PORT" = None -> PORT env = Fin 3001)
  /\ (env !! "PORT" = Some "" -> PORT env = Fin 3001)
  /\ (env !! "PORT" = Some (of_N n) -> n <= 9007199254740991 ->
      PORT env = Fin (inject_Z (Z.of_N n)))
  /\ (env !! "PORT" = Some (of_N n) -> PORT env = binary64 (inject_Z (Z.of_N n))).
Proof.
  unfold PORT. repeat split; intros ->; [reflexivity | reflexivity | |].
  - intros Hn. rewrite numeral_truthy. apply Number_of_numeral, Hn.
  - rewrite numeral_truthy. apply Number_of_any_numeral.
Qed.

Lemma port_default_and_numeral_witness :
  PORT (<["PORT" := "8080"]> ∅) = Fin 8080.
Proof.
  refine (proj1 (proj2 (proj2 (port_default_and_numeral (<["PORT" := "8080"]> ∅) 8080))) _ _).
  - vm_compute. reflexivity.
  - vm_compute. intros H. discriminate H.
Defined.

(** ** Dates and the year of construction *)

(** X7.  When parseDate gives a string, its argument was a string of 8 code
    units, the result has 10, with a hyphen at the positions 4 and 7, and the
    three parts between the hyphens put together are the argument. *)
Theorem parseDate_parts (v : JSValue) (out : string) :
  Server.parseDate v = VString out \/ Part001.parseDate v = VString out ->
  exists s,
    v = VString s
    /\ String.length s = 8%nat
    /\ String.length out = 10%nat
    /\ slice out 4 5 = "-" /\ slice out 7 8 = "-"
    /\ (slice out 0 4 ++ slice out 5 7 ++ slice out 8 10)%string = s.
Proof.
  intros H.
  assert (Hs : exists s, v = VString s /\ date_of (VString s) = VString out).
  { destruct v as [| | [|] | n | s]; try (destruct H as [H | H]; discriminate H).
    - destruct H as [H | H]; [| discriminate H].
      unfold Server.parseDate in H. simpl in H. destruct (num_truthy n); discriminate H.
    - exists s. split; [reflexivity |].
      destruct (parseDate_variants s) as [H1 H2].
      destruct H as [H | H]; congruence. }
  destruct Hs as [s [-> Hd]]. exists s. split; [reflexivity |].
  unfold date_of in Hd.
  do 9 (destruct s as [| ? s]; [try discriminate Hd |]); [| discriminate Hd].
  simpl in Hd. injection Hd as <-. repeat split; reflexivity.
Qed.

Lemma parseDate_parts_witness :
  exists s,
    VString "20180601" = VString s
    /\ String.length s = 8%nat
    /\ String.length "2018-06-01" = 10%nat
    /\ slice "2018-06-01" 4 5 = "-" /\ slice "2018-06-01" 7 8 = "-"
    /\ (slice "2018-06-01" 0 4 ++ slice "2018-06-01" 5 7 ++ slice "2018-06-01" 8 10)%string
       = s.
Proof.
  apply (parseDate_parts (VString "20180601") "2018-06-01"). left. reflexivity.
Defined.

(** X8.  In a summary, the year of construction is the number written by
    the first four code units of the date of first admission of the row
    (whatever the length of that date), and so, whenever the summary carries
    the date, by the first four code units of that date. *)
Theorem bouwjaar_is_year_of_date (plate : string) (b : Row) (kleuren : RecordSet)
    (fuels : list Obj) (s : Obj) :
  Part001.summary plate b kleuren fuels = Ok s ->
  (forall raw, get b "datum_eerste_toelating" = VString raw -> nonempty raw = true ->
     prop s "bouwjaar" = VNumber (StringToNumber (slice raw 0 4)))
  /\ (forall date, prop s "datum_eerste_toelating" = VString date ->
        prop s "bouwjaar" = VNumber (StringToNumber (slice date 0 4)))
  /\ (truthy (get b "datum_eerste_toelating") = false ->
      prop s "bouwjaar" = VNull /\ prop s "datum_eerste_toelating" = VNull).
Proof.
  unfold Part001.summary, Part001.bouwjaar.
  destruct (get b "datum_eerste_toelating") as [| | [|] | n | raw] eqn:E.
  1-4: simpl; try discriminate;
       intros [= <-]; simpl; repeat split; intros; discriminate.
  - simpl. destruct (num_truthy n) eqn:En; [discriminate |].
    intros [= <-]. simpl. repeat split; intros; discriminate.
  - simpl truthy. destruct (nonempty raw) eqn:En; intros [= <-].
    + split; [| split].
      * intros raw' [= <-] _. reflexivity.
      * intros date H.
        change (Part001.parseDate (VString raw) = VString date) in H.
        change (VNumber (StringToNumber (slice raw 0 4))
                = VNumber (StringToNumber (slice date 0 4))).
        rewrite (proj2 (parseDate_variants raw)) in H. unfold date_of in H.
        do 9 (destruct raw as [| ? raw]; [try discriminate H |]); [| discriminate H].
        simpl in H. injection H as <-. reflexivity.
      * intros H. discriminate H.
    + destruct raw; [| discriminate En].
      split; [| split].
      * intros raw' [= <-] H. discriminate H.
      * intros date H. discriminate H.
      * intros _. split; reflexivity.
Qed.

Lemma bouwjaar_is_year_of_date_witness :
  exists s, Part001.summary "AB123C" Sample.toyota [] [] = Ok s
            /\ prop s "bouwjaar" = VNumber (StringToNumber "2018").
Proof.
  eexists. split; [vm_compute; reflexivity |].
  refine (proj1 (bouwjaar_is_year_of_date "AB123C" Sample.toyota [] [] _ _) "20180601" _ _);
    vm_compute; reflexivity.
Defined.

(** ** Failure of the all-or-nothing variants *)

Section FirstRejection.

Context {D : Type} (up : Upstream) (target : D -> string) (q : D -> Result RecordSet).

Lemma settle_sorted (ds : list D) :
  StronglySorted (fun x y => (settled up (target x) <= settled up (target y))%nat)
    (stable_sort (fun x y => (settled up (target y) <? settled up (target x))%nat) ds).
Proof using Type.
  apply stable_sort_sorted with (good := fun _ => True).
  - intros x y _ _ H. apply Nat.ltb_ge in H. exact H.
  - intros x y _ _ H. apply Nat.ltb_lt in H. lia.
  - intros x y z Hxy Hyz. lia.
  - apply List.Forall_forall. intros; exact I.
Qed.

Lemma first_of_sorted (l : list D) :
  StronglySorted (fun x y => (settled up (target x) <= settled up (target y))%nat) l ->
  (exists d e, In d l /\ q d = Throw e) ->
  exists d e,
    In d l /\ q d = Throw e
    /\ head (flat_map (fun d => match q d with Throw e => [e] | Ok _ => [] end) l) = Some e
    /\ forall d' e', In d' l -> q d' = Throw e' ->
         (settled up (target d) <= settled up (target d'))%nat.
Proof using Type.
  induction 1 as [| x r Hs IH Hx]; intros [d0 [e0 [Hin Hq]]]; [destruct Hin |].
  simpl. destruct (q x) as [rows | e] eqn:Ex.
  - destruct Hin as [-> | Hin]; [congruence |].
    destruct (IH (ex_intro _ d0 (ex_intro _ e0 (conj Hin Hq)))) as [d [e [H1 [H2 [H3 H4]]]]].
    exists d, e. repeat split; [right; exact H1 | exact H2 | exact H3 |].
    intros d' e' [<- | Hin'] Hq'; [congruence | eapply H4; eassumption].
  - exists x, e. repeat split; [left; reflexivity | exact Ex |].
    intros d' e' [<- | Hin'] Hq'; [lia |].
    exact (proj1 (List.Forall_forall _ _) Hx d' Hin').
Qed.

(** When a fetch fails, [Promise.all] rejects with the error of a failed
    fetch that no failed fetch settles before. *)
Lemma first_rejection_earliest (ds : list D) :
  (exists d e, In d ds /\ q d = Throw e) ->
  exists d e, In d ds /\ q d = Throw e
              /\ Server.first_rejection up target q ds = Some e
              /\ forall d' e', In d' ds -> q d' = Throw e' ->
                   (settled up (target d) <= settled up (target d'))%nat.
Proof using Type.
  intros [d0 [e0 [Hin Hq]]].
  pose proof (stable_sort_perm
                (fun x y => (settled up (target y) <? settled up (target x))%nat) ds) as Hperm.
  destruct (first_of_sorted _ (settle_sorted ds)) as [d [e [H1 [H2 [H3 H4]]]]].
  { exists d0, e0. split; [| exact Hq].
    apply (Permutation_in _ (Permutation_sym Hperm)). exact Hin. }
  exists d, e. repeat split.
  - apply (Permutation_in _ Hperm). exact H1.
  - exact H2.
  - exact H3.
  - intros d' e' Hin' Hq'. apply (H4 d' e'); [| exact Hq'].
    apply (Permutation_in _ (Permutation_sym Hperm)). exact Hin'.
Qed.

End FirstRejection.




(** X10.  [server.js] and [part_000] answer every request whose kenteken
    parameter converts to a text: whatever the upstream does (a row with a
    date that is no string included), the handler sends a response, with
    status 200, 400, 404 or 500, and no exception escapes its [try]. *)
Theorem all_or_nothing_always_answers
    (env : gmap string string) (up : Upstream) (q : option Query) :
  kenteken_throws q = false ->
  (exists code body,
     outcome (Server.api_rdw env up q) = Responded code body
     /\ (code = 200 \/ code = 400 \/ code = 404 \/ code = 500))
  /\ (exists code body,
        outcome (Part000.api_rdw env up q) = Responded code body
        /\ (code = 200 \/ code = 400 \/ code = 404 \/ code = 500)).
Proof.
  intros _. split.
  - unfold Server.api_rdw. destruct (negb _); simpl; [eauto 10 |].
    destruct (Server.first_rejection _ _ _ _); [eauto 10 |].
    destruct (Server.respond _ _ _ _ _ _ _) as [[code body] | e] eqn:E; [| eauto 10].
    apply respond_codes in E. destruct E as [-> | ->]; eauto 10.
  - unfold Part000.api_rdw. destruct (negb _); simpl; [eauto 10 |].
    destruct (Server.first_rejection _ _ _ _); [eauto 10 |].
    destruct (Part000.respond _ _ _ _ _ _ _) as [[code body] | e] eqn:E; [| eauto 10].
    unfold Part000.respond in E. destruct (_ && _).
    + injection E as <- _. eauto 10.
    + destruct (Part000.summary _ _ _ _); [| discriminate]. injection E as <- _. eauto 10.
Qed.

Lemma all_or_nothing_always_answers_witness :
  exists code body,
    outcome (Server.api_rdw ∅ Sample.axles_down_dated_by_number (Some (QString "AB-123-C")))
    = Responded code body
    /\ (code = 200 \/ code = 400 \/ code = 404 \/ code = 500).
Proof.
  refine (proj1 (all_or_nothing_always_answers ∅ Sample.axles_down_dated_by_number
                   (Some (QString "AB-123-C")) _)).
  reflexivity.
Defined.

Lemma first_record_value (r : Result RecordSet) (b : Row) :
  first_record r = Some b ->
  match Server.value_of r with row :: _ => row | [] => ∅ end = b.
Proof.
  destruct r as [[| b' rest] | e]; simpl; intros H; first [discriminate H | idtac].
  injection H as <-. reflexivity.
Qed.

(** X11.  A first basis record whose date of first admission is neither a
    string nor falsy (a number, say) has no [slice], and the year of
    construction cannot be taken from it.  The partial-tolerant variant
    shapes its response outside any [try]: it has made its four requests
    and sends no response.  [server.js] and [part_000] catch the exception:
    when the record has a make or a trade name they answer 500, and when,
    besides, all six fetches succeeded, the detail of the 500 is the message
    of that TypeError. *)
Theorem non_string_date_fails_the_request
    (env : gmap string string) (up : Upstream) (q : option Query) (b : Row) :
  kenteken_throws q = false ->
  text_or_falsy (get b "datum_eerste_toelating") = false ->
  (test_plate (Part001.normalize q) = true ->
   first_record (Part001.fetchJSON env up q Part001.basis) = Some b ->
   (exists e, outcome (Part001.api_rdw env up q) = Unhandled e)
   /\ requests (Part001.api_rdw env up q)
      = map (Part001.request env q)
          [Part001.basis; Part001.brand; Part001.kleuren; Part001.assen])
  /\ (nonempty (Server.normalize q) = true ->
      first_record (Server.q up q Server.basis) = Some b ->
      truthy (get b "merk") || truthy (get b "handelsbenaming") = true ->
      (exists e, outcome (Server.api_rdw env up q) = Responded 500 (Server.failure_body e))
      /\ ((forall d, exists rows, Server.q up q d = Ok rows) ->
          outcome (Server.api_rdw env up q)
          = Responded 500
              (JObj [ ("error", JVal (VString "RDW service fout"));
                      ("detail",
                       JVal (VString "basis.datum_eerste_toelating.slice is not a function"))
                    ])))
  /\ (test_plate (Part000.normalize q) = true ->
      first_record (Part000.q up q Server.basis) = Some b ->
      truthy (get b "merk") || truthy (get b "handelsbenaming") = true ->
      (exists e, outcome (Part000.api_rdw env up q) = Responded 500 (Server.failure_body e))
      /\ ((forall d, exists rows, Part000.q up q d = Ok rows) ->
          outcome (Part000.api_rdw env up q)
          = Responded 500
              (JObj [ ("error", JVal (VString "RDW service fout"));
                      ("detail",
                       JVal (VString "basis.datum_eerste_toelating.slice is not a function"))
                    ]))).
Proof.
  intros _ Hdate.
  assert (Hyear : Server.bouwjaar b
                  = Throw (TypeError "basis.datum_eerste_toelating.slice is not a function")).
  { exact (proj2 (year_of_date b) Hdate). }
  split; [| split].
  - intros Hplate Hb.
    unfold Part001.api_rdw, Part001.plate. rewrite Hplate. simpl.
    destruct (Part001.fetchJSON env up q Part001.basis) as [[| b' rest] | e];
      simpl in Hb; try discriminate Hb.
    injection Hb as ->. simpl. unfold Part001.summary.
    rewrite (proj2 (year_of_date b) Hdate). split; [eexists |]; reflexivity.
  - intros Hplate Hb Hname.
    assert (Hnot : negb (truthy (get b "merk")) && negb (truthy (get b "handelsbenaming"))
                   = false).
    { destruct (truthy (get b "merk")), (truthy (get b "handelsbenaming"));
        first [reflexivity | discriminate Hname]. }
    assert (Hrespond :
              Server.respond (Server.normalize q)
                (Server.value_of (Server.q up q Server.basis))
                (Server.value_of (Server.q up q Server.brandstof))
                (Server.value_of (Server.q up q Server.kleur))
                (Server.value_of (Server.q up q Server.carrosserie))
                (Server.value_of (Server.q up q Server.carrosserie_specifiek))
                (Server.value_of (Server.q up q Server.assen))
              = Throw (TypeError "basis.datum_eerste_toelating.slice is not a function")).
    { unfold Server.respond. rewrite (first_record_value _ _ Hb), Hnot.
      unfold Server.summary. rewrite Hyear. reflexivity. }
    unfold Server.api_rdw, Server.plate. rewrite Hplate. simpl. rewrite Hrespond.
    split.
    + destruct (Server.first_rejection _ _ _ _); eexists; reflexivity.
    + intros Hall. rewrite (no_rejection up _ _ _ Hall). reflexivity.
  - intros Hplate Hb Hname.
    assert (Hnot : negb (truthy (get b "merk")) && negb (truthy (get b "handelsbenaming"))
                   = false).
    { destruct (truthy (get b "merk")), (truthy (get b "handelsbenaming"));
        first [reflexivity | discriminate Hname]. }
    assert (Hrespond :
              Part000.respond (Part000.normalize q)
                (Server.value_of (Part000.q up q Server.basis))
                (Server.value_of (Part000.q up q Server.brandstof))
                (Server.value_of (Part000.q up q Server.kleur))
                (Server.value_of (Part000.q up q Server.carrosserie))
                (Server.value_of (Part000.q up q Server.carrosserie_specifiek))
                (Server.value_of (Part000.q up q Server.assen))
              = Throw (TypeError "basis.datum_eerste_toelating.slice is not a function")).
    { unfold Part000.respond. rewrite (first_record_value _ _ Hb), Hnot.
      unfold Part000.summary. rewrite Hyear. reflexivity. }
    unfold Part000.api_rdw, Part000.plate. rewrite Hplate. simpl. rewrite Hrespond.
    split.
    + destruct (Server.first_rejection _ _ _ _); eexists; reflexivity.
    + intros Hall. rewrite (no_rejection up _ _ _ Hall). reflexivity.
Qed.

Lemma non_string_date_fails_the_request_witness :
  outcome (Server.api_rdw ∅ Sample.axles_down_dated_by_number (Some (QString "AB-123-C")))
  = Responded 500 (Server.failure_body (Error
      "RDW 500 Internal Server Error for https://opendata.rdw.nl/resource/3huj-srit.json?kenteken=AB123C"))
  /\ exists e,
       outcome (Part001.api_rdw ∅ Sample.axles_down_dated_by_number
                  (Some (QString "AB-123-C"))) = Unhandled e.
Proof.
  split; [vm_compute; reflexivity |].
  refine (proj1 (proj1 (non_string_date_fails_the_request ∅ Sample.axles_down_dated_by_number
                          (Some (QString "AB-123-C")) Sample.dated_by_number _ _) _ _));
    vm_compute; reflexivity.
Defined.

(** ** The warnings of the partial-tolerant variant *)

Lemma warning_length (d : Part001.Dataset) (e : Exn) :
  (String.length (Part001.warning d e) <= 151)%nat.
Proof.
  unfold Part001.warning. rewrite !length_app.
  pose proof (slice_length_le (message e) 140) as H.
  change (Z.of_nat 140) with 140%Z in H.
  destruct d; simpl; lia.
Qed.

(** X12.  In a 200 response of the partial-tolerant variant, details.warnings
    holds exactly one warning for every secondary fetch (fuel, colour, axle)
    that failed and none for one that succeeded: at most three entries, each
    of at most 151 code units (the label, and at most 140 code units of the
    message). *)
Theorem warnings_report_failed_fetches
    (env : gmap string string) (up : Upstream) (q : option Query) (body : Json) :
  outcome (Part001.api_rdw env up q) = Responded 200 body ->
  exists warnings,
    path ["details"; "warnings"] body = Some (jstrings warnings)
    /\ Permutation warnings
         (flat_map (fun d => match Part001.fetchJSON env up q d with
                             | Ok _ => []
                             | Throw e => [Part001.warning d e]
                             end)
            [Part001.brand; Part001.kleuren; Part001.assen])
    /\ (List.length warnings <= 3)%nat
    /\ Forall (fun w => (String.length w <= 151)%nat) warnings.
Proof.
  unfold Part001.api_rdw. destruct (negb _); simpl; [discriminate |].
  destruct (Part001.fetchJSON env up q Part001.basis) as [[| b rest] | e0] eqn:Eb; simpl;
    try discriminate.
  destruct (Part001.summary _ _ _ _); [| discriminate].
  intros [= <-].
  exists (flat_map (Part001.pushes env up q) (Part001.settling env up q)).
  assert (Hperm : Permutation (flat_map (Part001.pushes env up q) (Part001.settling env up q))
                    (flat_map (Part001.pushes env up q) Part001.secondary))
    by apply perm_flat_map, secondary_settle.
  split; [| split; [exact Hperm | split]].
  - change (Some (jstrings (Part001.pushes env up q Part001.basis
                            ++ flat_map (Part001.pushes env up q) (Part001.settling env up q)))
            = Some (jstrings (flat_map (Part001.pushes env up q) (Part001.settling env up q)))).
    unfold Part001.pushes at 1. rewrite Eb. reflexivity.
  - rewrite (Permutation_length Hperm). unfold Part001.secondary, Part001.pushes. simpl.
    destruct (Part001.fetchJSON env up q Part001.brand),
             (Part001.fetchJSON env up q Part001.kleuren),
             (Part001.fetchJSON env up q Part001.assen); simpl; lia.
  - apply List.Forall_forall. intros w Hw.
    apply in_flat_map in Hw. destruct Hw as [d [_ Hw]].
    unfold Part001.pushes in Hw. destruct (Part001.fetchJSON env up q d); [destruct Hw |].
    destruct Hw as [<- | []]. apply warning_length.
Qed.

Lemma warnings_report_failed_fetches_witness :
  exists warnings,
    Permutation warnings
      (flat_map (fun d => match Part001.fetchJSON ∅ Sample.axles_down
                                  (Some (QString "AB-123-C")) d with
                          | Ok _ => []
                          | Throw e => [Part001.warning d e]
                          end)
         [Part001.brand; Part001.kleuren; Part001.assen])
    /\ (List.length warnings <= 3)%nat.
Proof.
  destruct (warnings_report_failed_fetches ∅ Sample.axles_down (Some (QString "AB-123-C"))
              _ ltac:(vm_compute; reflexivity)) as [warnings [_ [H1 [H2 _]]]].
  exists warnings. split; assumption.
Defined.

(** X13.  What a failed secondary fetch costs in the partial-tolerant
    variant: the response is still 200; a failed fuel fetch leaves
    details.brandstoffen empty and summary.brandstof null, a failed colour
    fetch leaves details.kleuren empty, summary.tweede_kleur null and
    summary.kleur at the first colour of the basis record (or null), a failed
    axle fetch leaves details.assen empty. *)
Theorem failed_secondary_degrades
    (env : gmap string string) (up : Upstream) (q : option Query) (body : Json) :
  outcome (Part001.api_rdw env up q) = Responded 200 body ->
  ((exists e, Part001.fetchJSON env up q Part001.brand = Throw e) ->
   path ["details"; "brandstoffen"] body = Some (JArr [])
   /\ path ["summary"; "brandstof"] body = Some (JVal VNull))
  /\ ((exists e, Part001.fetchJSON env up q Part001.kleuren = Throw e) ->
      path ["details"; "kleuren"] body = Some (JArr [])
      /\ path ["summary"; "tweede_kleur"] body = Some (JVal VNull)
      /\ exists b,
           first_record (Part001.fetchJSON env up q Part001.basis) = Some b
           /\ path ["summary"; "kleur"] body = Some (JVal (or_null (get b "eerste_kleur"))))
  /\ ((exists e, Part001.fetchJSON env up q Part001.assen = Throw e) ->
      path ["details"; "assen"] body = Some (JArr [])).
Proof.
  unfold Part001.api_rdw. destruct (negb _); simpl; [discriminate |].
  destruct (Part001.fetchJSON env up q Part001.basis) as [[| b rest] | e0] eqn:Eb; simpl;
    try discriminate.
  unfold Part001.summary. destruct (Part001.bouwjaar b); [| discriminate].
  intros [= <-]. split; [| split].
  - intros [e He]. unfold Part001.rows_of. rewrite He. split; reflexivity.
  - intros [e He]. unfold Part001.rows_of. rewrite He.
    split; [reflexivity |]. split; [reflexivity |]. exists b. split; reflexivity.
  - intros [e He]. unfold Part001.rows_of. rewrite He. reflexivity.
Qed.

Lemma failed_secondary_degrades_witness :
  exists body,
    outcome (Part001.api_rdw ∅ Sample.axles_down (Some (QString "AB-123-C")))
      = Responded 200 body
    /\ path ["details"; "assen"] body = Some (JArr []).
Proof.
  eexists. split; [vm_compute; reflexivity |].
  refine (proj2 (proj2 (failed_secondary_degrades ∅ Sample.axles_down
                          (Some (QString "AB-123-C")) _ _)) _).
  - vm_compute; reflexivity.
  - eexists. vm_compute. reflexivity.
Defined.

(** ** The variants compared *)

Lemma normalize_same (q : option Query) : Server.normalize q = Part000.normalize q.
Proof. apply toUpperCase_removeHyphens. Qed.

Lemma parseDate_same (v : JSValue) : Part000.parseDate v = Server.parseDate v.
Proof.
  destruct v as [| | [|] | n | s]; try reflexivity.
  - unfold Server.parseDate. simpl. destruct (num_truthy n); reflexivity.
  - destruct (parseDate_variants s) as [H1 H2].
    change (Part000.parseDate (VString s)) with (Part001.parseDate (VString s)).
    congruence.
Qed.

Lemma summary_same (plate : string) (b : Row) (kleuren fuels : list Obj) :
  Part000.summary plate b kleuren fuels = Server.summary plate b kleuren fuels.
Proof.
  unfold Part000.summary, Server.summary. rewrite !parseDate_same. reflexivity.
Qed.

Lemma q_same (up : Upstream) (q : option Query) (d : Server.Dataset) :
  Server.value_of (Part000.q up q d) = Server.value_of (Server.q up q d)
  /\ ((exists e, Part000.q up q d = Throw e) <-> (exists e, Server.q up q d = Throw e)).
Proof.
  unfold Part000.q, Server.q, Part000.plate, Server.plate.
  rewrite normalize_same.
  destruct (answer up _) as [e | r].
  - split; [reflexivity | split; intros _; eexists; reflexivity].
  - destruct (ok r); simpl.
    + split; reflexivity.
    + split; [reflexivity | split; intros _; eexists; reflexivity].
Qed.

Lemma rejection_iff {D : Type} (up : Upstream) (target : D -> string)
    (q : D -> Result RecordSet) (ds : list D) :
  Server.first_rejection up target q ds = None
  <-> forall d, In d ds -> exists rows, q d = Ok rows.
Proof.
  split.
  - intros H d Hin. destruct (q d) as [rows | e] eqn:E; [eexists; reflexivity |].
    destruct (first_rejection_earliest up target q ds) as [d' [e' [_ [_ [H' _]]]]].
    { exists d, e. split; assumption. }
    congruence.
  - intros H. unfold Server.first_rejection.
    pose proof (stable_sort_perm
                  (fun x y => (settled up (target y) <? settled up (target x))%nat) ds) as Hperm.
    assert (Hall : forall d, In d (stable_sort
                     (fun x y => (settled up (target y) <? settled up (target x))%nat) ds)
                   -> exists rows, q d = Ok rows).
    { intros d Hin. apply H. apply (Permutation_in _ Hperm). exact Hin. }
    clear Hperm H. induction (stable_sort _ ds) as [| d l IH]; [reflexivity |].
    simpl. destruct (Hall d (or_introl eq_refl)) as [rows ->]. simpl.
    apply IH. intros d' Hin. apply Hall. right. exact Hin.
Qed.

(** X14.  [server.js] and [part_000] compute the same plate from every
    query (raising the case before or after removing the hyphens makes no
    difference).  For a plate that passes the validation of [part_000] the two
    send the same six requests and answer with the same status; when that is
    200, with the same summary, the same fuel, colour, body and axle lists
    and the same raw arrays.  They differ in the detail of a 500 and in
    details.basis. *)
Theorem server_and_part000_agree
    (env : gmap string string) (up : Upstream) (q : option Query) :
  Server.normalize q = Part000.normalize q
  /\ (test_plate (Part000.normalize q) = true ->
      requests (Server.api_rdw env up q) = requests (Part000.api_rdw env up q)
      /\ status_of (outcome (Server.api_rdw env up q))
         = status_of (outcome (Part000.api_rdw env up q))
      /\ forall body body',
           outcome (Server.api_rdw env up q) = Responded 200 body ->
           outcome (Part000.api_rdw env up q) = Responded 200 body' ->
           path ["summary"] body = path ["summary"] body'
           /\ path ["_raw"] body = path ["_raw"] body'
           /\ Forall (fun k => path ["details"; k] body = path ["details"; k] body')
                ["brandstoffen"; "kleuren"; "carrosserie"; "carrosserie_specifiek"; "assen"]).
Proof.
  split; [apply normalize_same |].
  intros Hvalid.
  assert (Hplate : nonempty (Server.normalize q) = true).
  { rewrite normalize_same. unfold test_plate in Hvalid.
    destruct (Part000.normalize q); [discriminate Hvalid | reflexivity]. }
  unfold Server.api_rdw, Part000.api_rdw, Server.request, Part000.request,
    Server.plate, Part000.plate.
  rewrite Hplate, Hvalid. simpl negb. cbv iota.
  rewrite <- normalize_same.
  split; [reflexivity |].
  cbn [outcome].
  destruct (Server.first_rejection up (Server.endpoint (Server.normalize q))
              (Server.q up q) Server.all_datasets) as [e |] eqn:Es.
  - assert (Hp : exists e', Server.first_rejection up (Server.endpoint (Server.normalize q))
                              (Part000.q up q) Server.all_datasets = Some e').
    { destruct (Server.first_rejection up (Server.endpoint (Server.normalize q))
                  (Part000.q up q) Server.all_datasets) as [e' |] eqn:Ep;
        [eexists; reflexivity |].
      exfalso. rewrite rejection_iff in Ep.
      assert (Hnone : Server.first_rejection up (Server.endpoint (Server.normalize q))
                        (Server.q up q) Server.all_datasets = None).
      { apply rejection_iff. intros d Hin. destruct (Ep d Hin) as [rows Hrows].
        destruct (Server.q up q d) as [rows' | e'] eqn:E; [eexists; reflexivity |].
        destruct (proj2 (proj2 (q_same up q d)) (ex_intro _ e' E)) as [e'' He''].
        congruence. }
      congruence. }
    destruct Hp as [e' ->]. split; [reflexivity |].
    intros body body' H. discriminate H.
  - assert (Hp : Server.first_rejection up (Server.endpoint (Server.normalize q))
                   (Part000.q up q) Server.all_datasets = None).
    { rewrite rejection_iff in Es. apply rejection_iff. intros d Hin.
      destruct (Es d Hin) as [rows Hrows].
      destruct (Part000.q up q d) as [rows' | e'] eqn:E; [eexists; reflexivity |].
      destruct (proj1 (proj2 (q_same up q d)) (ex_intro _ e' E)) as [e'' He''].
      congruence. }
    rewrite Hp.
    rewrite !(proj1 (q_same up q _)).
    unfold Server.respond, Part000.respond.
    destruct (_ && _).
    + split; [reflexivity |]. intros body body' H. discriminate H.
    + rewrite summary_same.
      destruct (Server.summary _ _ _ _) as [s | e]; [| split; [reflexivity |];
        intros body body' H; discriminate H].
      split; [reflexivity |].
      intros body body' [= <-] [= <-]. repeat split; repeat constructor.
Qed.

Lemma server_and_part000_agree_witness :
  status_of (outcome (Server.api_rdw ∅ Sample.toyota_only (Some (QString "AB-123-C"))))
  = status_of (outcome (Part000.api_rdw ∅ Sample.toyota_only (Some (QString "AB-123-C")))).
Proof.
  refine (proj1 (proj2 (proj2 (server_and_part000_agree ∅ Sample.toyota_only
                                 (Some (QString "AB-123-C"))) _))).
  vm_compute. reflexivity.
Defined.

(** ** Queries without a usable plate *)

Lemma removeHyphens_empty (s : string) :
  removeHyphens s = "" <-> all_chars (fun c => code c =? 45) s = true.
Proof.
  induction s as [| c r IH]; simpl; [split; reflexivity |].
  destruct (code c =? 45); simpl; [exact IH |]. split; discriminate.
Qed.

Lemma upper_char_nonempty (c : ascii) : nonempty (upper_char c) = true.
Proof. destruct c as [[] [] [] [] [] [] [] []]; reflexivity. Qed.

Lemma toUpperCase_empty (s : string) : nonempty (toUpperCase s) = nonempty s.
Proof.
  destruct s as [| c r]; [reflexivity |]. simpl.
  pose proof (upper_char_nonempty c) as H.
  destruct (upper_char c); [discriminate H | reflexivity].
Qed.

Lemma nonempty_false (s : string) : nonempty s = false <-> s = "".
Proof. destruct s; split; intros H; first [reflexivity | discriminate H]. Qed.

(** X15.  [server.js] answers 400 exactly when the kenteken parameter is
    absent, empty or made of hyphens only; no request is sent then.  Such a
    query gets 400 without a request from the validating variants too. *)
Theorem missing_plate_is_rejected
    (env : gmap string string) (up : Upstream) (q : option Query) :
  (status_of (outcome (Server.api_rdw env up q)) = Some 400
   <-> all_chars (fun c => code c =? 45) (kenteken_text q) = true)
  /\ (all_chars (fun c => code c =? 45) (kenteken_text q) = true ->
      Server.api_rdw env up q
      = {| outcome := Responded 400 (error_body "kenteken ontbreekt"); requests := [] |}
      /\ Part000.api_rdw env up q
         = {| outcome := Responded 400 (error_body "Ongeldig kentekenformaat");
              requests := [] |}
      /\ Part001.api_rdw env up q
         = {| outcome := Responded 400 (error_body "Ongeldig kentekenformaat");
              requests := [] |}).
Proof.
  assert (Hempty : all_chars (fun c => code c =? 45) (kenteken_text q) = true
                   <-> nonempty (Server.normalize q) = false).
  { unfold Server.normalize. rewrite toUpperCase_empty, nonempty_false.
    symmetry. apply removeHyphens_empty. }
  split.
  - rewrite Hempty. split.
    + intros H. destruct (nonempty (Server.normalize q)) eqn:E; [| reflexivity].
      destruct (server_statuses env up q E) as [H' | [H' | H']]; congruence.
    + intros H. unfold Server.api_rdw, Server.plate. rewrite H. reflexivity.
  - intros H. apply Hempty in H.
    assert (Hp : Part000.normalize q = "")
      by (rewrite <- normalize_same; apply nonempty_false; exact H).
    split; [| split].
    + unfold Server.api_rdw, Server.plate. rewrite H. reflexivity.
    + unfold Part000.api_rdw, Part000.plate. rewrite Hp. reflexivity.
    + unfold Part001.api_rdw, Part001.plate, Part001.normalize.
      change (removeHyphens (toUpperCase (kenteken_text q))) with (Part000.normalize q).
      rewrite Hp. reflexivity.
Qed.

Lemma missing_plate_is_rejected_witness :
  Server.api_rdw ∅ Sample.toyota_only (Some (QString "--"))
  = {| outcome := Responded 400 (error_body "kenteken ontbreekt"); requests := [] |}.
Proof.
  refine (proj1 (proj2 (missing_plate_is_rejected ∅ Sample.toyota_only
                          (Some (QString "--"))) _)).
  reflexivity.
Defined.

(** ** A repeated or bracketed parameter *)

Lemma toUpperCase_app (s t : string) :
  toUpperCase (s ++ t) = (toUpperCase s ++ toUpperCase t)%string.
Proof.
  induction s as [| c r IH]; [reflexivity |].
  rewrite append_cons. simpl. rewrite IH, append_assoc'. reflexivity.
Qed.

Lemma join_has_comma (a b : string) (r : list string) :
  exists x y, join "," (a :: b :: r) = (x ++ "," ++ y)%string.
Proof. exists a, (join "," (b :: r)). reflexivity. Qed.

Lemma comma_survives (x y : string) :
  all_chars (fun c => is_plate_char c || is_space c)
    (removeHyphens (toUpperCase (x ++ "," ++ y))) = false.
Proof.
  rewrite !toUpperCase_app, !removeHyphens_app, !all_chars_app.
  change (all_chars (fun c => is_plate_char c || is_space c) (removeHyphens (toUpperCase ",")))
    with false.
  rewrite andb_false_r. reflexivity.
Qed.

Lemma all_chars_trimStart (p : ascii -> bool) (s : string) :
  all_chars p (trimStart s) = true -> all_chars (fun c => p c || is_space c) s = true.
Proof.
  induction s as [| c r IH]; [reflexivity |]. simpl.
  destruct (is_space c) eqn:E.
  - intros H. rewrite orb_true_r. exact (IH H).
  - simpl. intros H. apply andb_prop in H. destruct H as [Hc H]. rewrite Hc. simpl.
    apply (all_chars_impl p); [| exact H]. intros c' ->. reflexivity.
Qed.

Lemma all_chars_trimEnd (p : ascii -> bool) (s : string) :
  all_chars p (trimEnd s) = true -> all_chars (fun c => p c || is_space c) s = true.
Proof.
  induction s as [| c r IH]; [reflexivity |]. simpl.
  destruct (trimEnd r) as [| c' r'] eqn:E.
  - destruct (is_space c) eqn:Ec.
    + intros _. rewrite orb_true_r. apply IH. reflexivity.
    + simpl. intros H. apply andb_prop in H. destruct H as [Hc _]. rewrite Hc.
      apply IH. reflexivity.
  - simpl. intros H. apply andb_prop in H. destruct H as [Hc H]. rewrite Hc.
    apply IH. exact H.
Qed.

Lemma trim_keeps_comma (x y : string) :
  all_chars is_plate_char (trim (removeHyphens (toUpperCase (x ++ "," ++ y)))) = false.
Proof.
  destruct (all_chars is_plate_char (trim (removeHyphens (toUpperCase (x ++ "," ++ y)))))
    eqn:E; [| reflexivity].
  unfold trim in E. apply all_chars_trimEnd, all_chars_trimStart in E.
  apply (all_chars_impl _ (fun c => is_plate_char c || is_space c)) in E.
  - rewrite comma_survives in E. discriminate E.
  - intros c H. apply orb_prop in H. destruct H as [H | ->]; [exact H | apply orb_true_r].
Qed.

(** X16.  A kenteken parameter that is repeated (an array of two or more
    values) or bracketed (an object), and that converts to a text, is
    answered 400 without a request by the validating variants, whatever the
    values: the values are joined with commas, and an object reads
    "[object Object]".  An array of one value is treated as that value. *)
Theorem repeated_parameter_is_rejected
    (env : gmap string string) (up : Upstream)
    (a b : Query) (rest : list Query) (members : list (string * Query)) :
  (String_throws (QArray (a :: b :: rest)) = false ->
   Part000.api_rdw env up (Some (QArray (a :: b :: rest)))
   = {| outcome := Responded 400 (error_body "Ongeldig kentekenformaat"); requests := [] |}
   /\ Part001.api_rdw env up (Some (QArray (a :: b :: rest)))
      = {| outcome := Responded 400 (error_body "Ongeldig kentekenformaat");
           requests := [] |})
  /\ (String_throws (QObject members) = false ->
      Part000.api_rdw env up (Some (QObject members))
      = {| outcome := Responded 400 (error_body "Ongeldig kentekenformaat");
           requests := [] |}
      /\ Part001.api_rdw env up (Some (QObject members))
         = {| outcome := Responded 400 (error_body "Ongeldig kentekenformaat");
              requests := [] |})
  /\ String_throws (QArray [a]) = String_throws a
  /\ Part000.api_rdw env up (Some (QArray [a])) = Part000.api_rdw env up (Some a)
  /\ Part001.api_rdw env up (Some (QArray [a])) = Part001.api_rdw env up (Some a)
  /\ Server.api_rdw env up (Some (QArray [a])) = Server.api_rdw env up (Some a).
Proof.
  destruct (join_has_comma (String_of a) (String_of b) (map String_of rest)) as [x [y Hj]].
  assert (H0 : test_plate (Part000.normalize (Some (QArray (a :: b :: rest)))) = false).
  { unfold test_plate, Part000.normalize.
    change (kenteken_text (Some (QArray (a :: b :: rest))))
      with (join "," (String_of a :: String_of b :: map String_of rest)).
    rewrite Hj.
    pose proof (comma_survives x y) as H.
    destruct (all_chars is_plate_char (removeHyphens (toUpperCase (x ++ "," ++ y)))) eqn:E.
    - apply (all_chars_impl _ (fun c => is_plate_char c || is_space c)) in E;
        [congruence | intros c ->; reflexivity].
    - apply andb_false_r. }
  assert (H1 : test_plate (Part001.normalize (Some (QArray (a :: b :: rest)))) = false).
  { unfold test_plate, Part001.normalize.
    change (kenteken_text (Some (QArray (a :: b :: rest))))
      with (join "," (String_of a :: String_of b :: map String_of rest)).
    rewrite Hj, trim_keeps_comma. apply andb_false_r. }
  split; [intros _; split; apply validating_variants_reject; assumption |].
  split; [intros _; split; apply validating_variants_reject; reflexivity |].
  split; [simpl; apply orb_false_r |].
  repeat split; reflexivity.
Qed.

Lemma repeated_parameter_is_rejected_witness :
  Part001.api_rdw ∅ Sample.toyota_only (Some (QArray [QString "AB123C"; QString "AB123C"]))
  = {| outcome := Responded 400 (error_body "Ongeldig kentekenformaat"); requests := [] |}.
Proof.
  refine (proj2 (proj1 (repeated_parameter_is_rejected ∅ Sample.toyota_only
                          (QString "AB123C") (QString "AB123C") [] []) _)).
  reflexivity.
Defined.

(** ** The shape of the response *)

Lemma or_null_defined (v : JSValue) : or_null v <> VUndefined.
Proof. unfold or_null, or. destruct v as [| | [|] | n | s]; simpl; try discriminate.
  - destruct (num_truthy n); discriminate.
  - destruct (nonempty s); discriminate.
Qed.

Lemma or_defined (v w : JSValue) : w <> VUndefined -> or v w <> VUndefined.
Proof.
  intros Hw. unfold or. destruct (truthy v) eqn:E; [| exact Hw].
  intros ->. discriminate E.
Qed.

Lemma coerce_defined (v : JSValue) : coerce v <> VUndefined.
Proof. unfold coerce. destruct (truthy v); discriminate. Qed.

Lemma parseDate_defined (v : JSValue) :
  Server.parseDate v <> VUndefined /\ Part001.parseDate v <> VUndefined.
Proof.
  destruct v as [| | [|] | n | s]; try (split; discriminate).
  - unfold Server.parseDate. simpl. destruct (num_truthy n); split; discriminate.
  - destruct (parseDate_variants s) as [-> ->]. unfold date_of.
    destruct (_ =? _)%nat; split; discriminate.
Qed.

Lemma bouwjaar_defined (b : Row) (year : JSValue) :
  Server.bouwjaar b = Ok year -> year <> VUndefined.
Proof.
  unfold Server.bouwjaar. destruct (truthy _).
  - destruct (get b "datum_eerste_toelating"); intros [= <-]; discriminate.
  - intros [= <-]. discriminate.
Qed.

Ltac defined :=
  first [ apply or_null_defined | apply coerce_defined
        | apply (proj1 (parseDate_defined _)) | apply (proj2 (parseDate_defined _))
        | apply or_defined; first [discriminate | apply or_null_defined | apply or_defined; discriminate]
        | discriminate | eapply bouwjaar_defined; eassumption ].

(** X17.  A summary always has the same members in the same order (17 in
    [server.js], 13 in the partial-tolerant variant), and none of them is
    ever undefined: a value that is missing is null, so that no key drops out
    of the serialised response.  The same holds for an entry of the fuel
    list. *)
Theorem summary_members_are_fixed (plate : string) (b : Row)
    (kleurArr brandstofArr : RecordSet) (s s' : Obj) :
  Server.summary plate b (Server.kleuren kleurArr) (Server.fuels brandstofArr) = Ok s ->
  Part001.summary plate b kleurArr (Part001.fuels brandstofArr) = Ok s' ->
  map fst s = [ "kenteken"; "merk"; "handelsbenaming"; "voertuigsoort"; "bouwjaar";
                "datum_eerste_toelating"; "apk_vervaldatum"; "kleur"; "tweede_kleur";
                "brandstof"; "zitplaatsen"; "deuren"; "bpm_bruto"; "massa_ledig_kg";
                "massa_rijklaar_kg"; "trekgewicht_ongeremd_kg"; "trekgewicht_geremd_kg" ]
  /\ map fst s' = [ "kenteken"; "merk"; "handelsbenaming"; "voertuigsoort"; "bouwjaar";
                    "datum_eerste_toelating"; "apk_vervaldatum"; "kleur"; "tweede_kleur";
                    "brandstof"; "zitplaatsen"; "deuren"; "massa_rijklaar_kg" ]
  /\ Forall (fun m => snd m <> VUndefined) s
  /\ Forall (fun m => snd m <> VUndefined) s'
  /\ Forall (fun m => snd m <> VUndefined) (Server.fuel_entry b)
  /\ Forall (fun m => snd m <> VUndefined) (Part001.fuel_entry b).
Proof.
  unfold Server.summary, Part001.summary.
  change (Part001.bouwjaar b) with (Server.bouwjaar b).
  destruct (Server.bouwjaar b) as [year | e] eqn:Ey; [| discriminate].
  intros [= <-] [= <-].
  split; [reflexivity |]. split; [reflexivity |].
  repeat split; repeat (constructor; [cbn [snd]; defined |]); constructor.
Qed.

Lemma summary_members_are_fixed_witness :
  Forall (fun m => snd m <> VUndefined) Sample.server_summary.
Proof.
  refine (proj1 (proj2 (proj2 (summary_members_are_fixed "AB123C" Sample.two_colours []
            Sample.fuel_rows Sample.server_summary Sample.part001_summary _ _)))).
  - vm_compute. reflexivity.
  - vm_compute. reflexivity.
Defined.

(** ** Sorting again *)

Lemma le_not_positive (x y : Num) :
  num_le x y = true -> num_positive (num_sub x y) = false.
Proof.
  destruct x as [| [|] | p], y as [| [|] | r]; simpl;
    try reflexivity; try discriminate.
  intros H. apply negb_false_iff. apply Qred_le_zero. apply Qle_bool_iff. exact H.
Qed.

Lemma sorted_is_kept {A : Type} (later : A -> A -> bool) (l : list A) :
  StronglySorted (fun x y => later x y = false) l -> stable_sort later l = l.
Proof.
  induction 1 as [| x r Hs IH Hx]; [reflexivity |].
  simpl. rewrite IH. destruct r as [| y r']; [reflexivity |].
  simpl. rewrite (Forall_inv Hx). reflexivity.
Qed.

Lemma ascending_is_kept (key : string) (d : Num) (entries : list Obj) :
  num_truthy d = true \/ d = Fin 0 ->
  Forall (coerced key) entries ->
  ascending key d entries ->
  Array_sort (fun a b => minus (or (prop a key) (VNumber d)) (or (prop b key) (VNumber d)))
    entries = entries.
Proof.
  intros Hd Hall Hasc. apply sorted_is_kept.
  unfold ascending in Hasc. induction Hasc as [| x r Hs IH Hx]; constructor.
  - apply IH. exact (Forall_inv_tail Hall).
  - pose proof (Forall_inv Hall) as Hgx. pose proof (Forall_inv_tail Hall) as Hgr.
    apply List.Forall_forall. intros y Hy.
    pose proof (proj1 (List.Forall_forall _ _) Hx y Hy) as Hle.
    pose proof (proj1 (List.Forall_forall _ _) Hgr y Hy) as Hgy.
    unfold minus.
    rewrite (proj1 (key_placed d _ Hgx Hd)), (proj1 (key_placed d _ Hgy Hd)).
    apply le_not_positive. exact Hle.
Qed.

(** X18.  The sort of the fuel list keeps what is in order: when the rows
    come from upstream already ascending by sequence number (a missing one
    counted as 0 in [server.js], as 99 in the partial-tolerant variant), the
    list is delivered in the upstream order, entries with equal or missing
    sequence numbers included; and sorting a delivered list again changes
    nothing. *)
Theorem fuels_keep_ascending_order (rows : RecordSet) :
  (ascending "volgnummer" (Fin 0) (map Server.fuel_entry rows) ->
   Server.fuels rows = map Server.fuel_entry rows)
  /\ (ascending "brandstof_volgnummer" (Fin 99) (map Part001.fuel_entry rows) ->
      Part001.fuels rows = map Part001.fuel_entry rows)
  /\ Array_sort Server.by_volgnummer (Server.fuels rows) = Server.fuels rows
  /\ Array_sort Part001.by_volgnummer (Part001.fuels rows) = Part001.fuels rows.
Proof.
  split; [| split; [| split]].
  - intros H. apply (ascending_is_kept "volgnummer" (Fin 0));
      [right; reflexivity | apply server_entries_coerced | exact H].
  - intros H. apply (ascending_is_kept "brandstof_volgnummer" (Fin 99));
      [left; reflexivity | apply part001_entries_coerced | exact H].
  - apply (ascending_is_kept "volgnummer" (Fin 0)); [right; reflexivity | |].
    + apply stable_sort_good, server_entries_coerced.
    + apply sorted_by_key; [right; reflexivity | apply server_entries_coerced].
  - apply (ascending_is_kept "brandstof_volgnummer" (Fin 99)); [left; reflexivity | |].
    + apply stable_sort_good, part001_entries_coerced.
    + apply sorted_by_key; [left; reflexivity | apply part001_entries_coerced].
Qed.

(** ** What goes upstream *)

(** X19.  Every URL that a validating variant requests is
    https://opendata.rdw.nl/resource/ID.json?kenteken=PLATE for one of the six
    fixed resource identifiers and a plate of 1 to 8 characters A-Z or 0-9:
    nothing of the query reaches the upstream but such a plate. *)
Theorem upstream_urls_are_fixed
    (env : gmap string string) (up : Upstream) (q : option Query) (r : Request) :
  In r (requests (Part000.api_rdw env up q)) \/ In r (requests (Part001.api_rdw env up q)) ->
  exists resource plate,
    url r = ("https://opendata.rdw.nl/resource/" ++ resource ++ ".json?kenteken=" ++ plate)%string
    /\ test_plate plate = true
    /\ In resource ["m9d7-ebf2"; "8ys7-d773"; "ihha-7xnj"; "vezc-m2t6"; "jhie-znh9";
                    "3huj-srit"].
Proof.
  intros [H | H].
  - unfold Part000.api_rdw, Part000.plate in H.
    destruct (test_plate (Part000.normalize q)) eqn:E; simpl in H; [| destruct H].
    repeat (destruct H as [<- | H]); try destruct H;
      eexists; exists (Part000.normalize q); (split; [reflexivity |]);
      (split; [exact E |]); simpl; auto 10.
  - unfold Part001.api_rdw, Part001.plate in H.
    destruct (test_plate (Part001.normalize q)) eqn:E; simpl in H; [| destruct H].
    assert (Henc : encodeURIComponent (Part001.normalize q) = Part001.normalize q).
    { apply encode_plate. unfold test_plate in E. apply andb_prop in E. apply E. }
    destruct (match Part001.fetchJSON env up q Part001.basis with
              | Ok arr => head arr
              | Throw _ => None
              end); simpl in H;
      repeat (destruct H as [<- | H]); try destruct H;
      unfold Part001.request, Part001.plate; simpl url; rewrite Henc;
      [ exists "m9d7-ebf2" | exists "8ys7-d773" | exists "ihha-7xnj" | exists "3huj-srit"
      | exists "m9d7-ebf2" ];
      exists (Part001.normalize q);
      (split; [reflexivity |]); (split; [exact E |]); simpl; auto 10.
Qed.

Lemma upstream_urls_are_fixed_witness :
  exists resource plate,
    "https://opendata.rdw.nl/resource/m9d7-ebf2.json?kenteken=AB123C"
    = ("https://opendata.rdw.nl/resource/" ++ resource ++ ".json?kenteken=" ++ plate)%string
    /\ test_plate plate = true
    /\ In resource ["m9d7-ebf2"; "8ys7-d773"; "ihha-7xnj"; "vezc-m2t6"; "jhie-znh9";
                    "3huj-srit"].
Proof.
  apply (upstream_urls_are_fixed ∅ Sample.toyota_only (Some (QString "AB-123-C"))
           {| url := "https://opendata.rdw.nl/resource/m9d7-ebf2.json?kenteken=AB123C";
              headers := [] |}).
  right. vm_compute. left. reflexivity.
Defined.

(** X20.  The partial-tolerant variant asks upstream no more than it needs.
    For a kenteken parameter that converts to a text: a 400 is given without
    a request, a 404 after the basis request alone, and only when the basis
    record is there are the three other datasets requested (four requests,
    the basis request first), whether the handler then answers 200 or sends
    no response. *)
Theorem requests_follow_the_answer
    (env : gmap string string) (up : Upstream) (q : option Query) :
  kenteken_throws q = false ->
  (status_of (outcome (Part001.api_rdw env up q)) = Some 400 ->
   requests (Part001.api_rdw env up q) = [])
  /\ (status_of (outcome (Part001.api_rdw env up q)) = Some 404 ->
      requests (Part001.api_rdw env up q) = [Part001.request env q Part001.basis])
  /\ (status_of (outcome (Part001.api_rdw env up q)) = Some 200
      \/ status_of (outcome (Part001.api_rdw env up q)) = None ->
      requests (Part001.api_rdw env up q)
      = [ Part001.request env q Part001.basis; Part001.request env q Part001.brand;
          Part001.request env q Part001.kleuren; Part001.request env q Part001.assen ]).
Proof.
  intros _.
  unfold Part001.api_rdw. destruct (negb _); simpl.
  - repeat split; try reflexivity; try discriminate. intros [H | H]; discriminate H.
  - destruct (match Part001.fetchJSON env up q Part001.basis with
              | Ok arr => head arr
              | Throw _ => None
              end); simpl.
    + destruct (Part001.summary _ _ _ _); simpl;
        repeat split; try reflexivity; discriminate.
    + repeat split; try reflexivity; try discriminate. intros [H | H]; discriminate H.
Qed.

Lemma requests_follow_the_answer_witness :
  requests (Part001.api_rdw ∅ Sample.down (Some (QString "AB-123-C")))
  = [Part001.request ∅ (Some (QString "AB-123-C")) Part001.basis].
Proof.
  refine (proj1 (proj2 (requests_follow_the_answer ∅ Sample.down
                          (Some (QString "AB-123-C")) _)) _).
  - reflexivity.
  - vm_compute. reflexivity.
Defined.
